(** * Car transfer tax bot: the Convex backend and the WhatsApp dialogue

    Shallow embedding of
    - [convex/cars.ts] (src/unnamed/part_002): the regional rate table,
      [calculateTransferTax] and its [transfers] audit log;
    - [convex/http.ts]: the [/api/calculateTransferTax] route;
    - [bot.ts]: the session-driven dialogue ([onMessage], [calculateAndReply]).

    JavaScript numbers are IEEE-754 binary64 values and are modelled by the
    kernel's primitive floats ([float], round-to-nearest-even like JS).
    Float literals such as [0.04] are parsed to the nearest binary64 value,
    exactly as a JS engine parses them. *)

From Stdlib Require Import ZArith QArith Qround Floats Ascii String Bool List Lia.
From stdpp Require Import base gmap strings.
Import ListNotations.

Set Warnings "-inexact-float".

Open Scope string_scope.

(** ** JavaScript helpers *)
Module JS.

(** [Math.round]: the integral Number closest to [x], ties towards +∞;
    NaN, infinities and zeros are returned unchanged, and a negative [x]
    that rounds to zero gives -0.  The exact value of a finite [x] is
    [±m·2^e]; for [e >= 0] it is already integral. *)
Definition math_round (x : float) : float :=
  match Prim2SF x with
  | S754_finite s m e =>
      if (0 <=? e)%Z then x
      else
        let d := (2 ^ (- e))%Z in
        let n := (if s then (d - 2 * Z.pos m) / (2 * d)
                  else (2 * Z.pos m + d) / (2 * d))%Z in
        if (n =? 0)%Z then (if s then (-0)%float else 0%float)
        else if (n <? 0)%Z then PrimFloat.opp (of_uint63 (Uint63.of_Z (- n)))
        else of_uint63 (Uint63.of_Z n)
  | _ => x
  end.

(** The values a property read on a plain object literal can produce. *)
Inductive jsval :=
| JSNumber (f : float)
| JSUndefined
| JSFunction (name : string)
| JSObject (name : string).

(** Truthiness, as used by [a || b]. *)
Definition truthy (v : jsval) : bool :=
  match v with
  | JSNumber f => negb (PrimFloat.eqb f 0) && negb (PrimFloat.is_nan f)
  | JSUndefined => false
  | JSFunction _ | JSObject _ => true
  end.

Definition or (a b : jsval) : jsval := if truthy a then a else b.

(** [ToNumber]: a function or [Object.prototype] converts through its
    [toString] text, which is not numeric. *)
Definition to_number (v : jsval) : float :=
  match v with
  | JSNumber f => f
  | _ => nan
  end.

(** [a * b] *)
Definition mul (a b : jsval) : float := PrimFloat.mul (to_number a) (to_number b).

Fixpoint assoc {A} (k : string) (l : list (string * A)) : option A :=
  match l with
  | [] => None
  | (k', v) :: l' => if String.eqb k k' then Some v else assoc k l'
  end.

(** Members of [Object.prototype], inherited by every object literal. *)
Definition Object_prototype : list (string * jsval) :=
  [("constructor", JSFunction "Object");
   ("__defineGetter__", JSFunction "__defineGetter__");
   ("__defineSetter__", JSFunction "__defineSetter__");
   ("hasOwnProperty", JSFunction "hasOwnProperty");
   ("__lookupGetter__", JSFunction "__lookupGetter__");
   ("__lookupSetter__", JSFunction "__lookupSetter__");
   ("isPrototypeOf", JSFunction "isPrototypeOf");
   ("propertyIsEnumerable", JSFunction "propertyIsEnumerable");
   ("toString", JSFunction "toString");
   ("valueOf", JSFunction "valueOf");
   ("__proto__", JSObject "Object.prototype");
   ("toLocaleString", JSFunction "toLocaleString")].

(** [obj[k]] for an object literal with numeric own properties [own]:
    own property first, then the prototype chain. *)
Definition get (own : list (string * float)) (k : string) : jsval :=
  match assoc k own with
  | Some f => JSNumber f
  | None =>
      match assoc k Object_prototype with
      | Some v => v
      | None => JSUndefined
      end
  end.

(** [s || d] for an optional string argument. *)
Definition or_string (s : option string) (d : string) : string :=
  match s with
  | Some s' => if String.eqb s' "" then d else s'
  | None => d
  end.

(** [xs.includes(x)] *)
Definition includes (xs : list string) (x : string) : bool :=
  existsb (String.eqb x) xs.

End JS.

(** ** convex/cars.ts and convex/schema.ts *)
Module Convex.

Inductive FuelType := gasoline | diesel | electric | hybrid.

(** A document of the [cars] table. *)
Record Car := mkCar {
  maker : string;
  model : string;
  year : Z;
  fiscalPower : float;
  fiscalValue : float;
  fuelType : FuelType
}.

(** A document of the [transfers] table. *)
Record TransferRecord := mkTransfer {
  carId : string;
  buyerRegion : string;
  calculatedTax : float;
  taxRate : float;
  timestamp : Z
}.

(** The two tables; [cars] keyed by document id, [transfers] in insertion
    order. *)
Record Db := mkDb {
  cars : gmap string Car;
  transfers : list TransferRecord
}.

Open Scope float_scope.

Definition REGIONAL_TAX_RATES : list (string * float) :=
  [("Andalucía", 0.04); ("Aragón", 0.04); ("Asturias", 0.04);
   ("Baleares", 0.04); ("Canarias", 0.055); ("Cantabria", 0.08);
   ("Castilla-La Mancha", 0.06); ("Castilla y León", 0.05);
   ("Cataluña", 0.05); ("Ceuta", 0.04); ("Comunidad Valenciana", 0.06);
   ("Extremadura", 0.06); ("Galicia", 0.03); ("La Rioja", 0.04);
   ("Madrid", 0.04); ("Melilla", 0.04); ("Murcia", 0.04);
   ("Navarra", 0.04); ("País Vasco", 0.04)].

Definition HIGH_POWER_REGIONS : list string :=
  ["Andalucía"; "Asturias"; "Baleares"; "Castilla y León"].
Definition HIGH_POWER_TAX_RATE : float := 0.08.
Definition HIGH_POWER_CV_THRESHOLD : float := 15.
Definition DEFAULT_TAX_RATE : float := 0.04.

Close Scope float_scope.

(** Arguments of the [calculateTransferTax] mutation. *)
Record CalcArgs := mkArgs {
  arg_carId : string;
  arg_region : option string;
  arg_isResident : option bool
}.

(** The two notes the mutation can push; [High_power_note p] is rendered
    as [⚠️ Aplica tarifa alta (>15 CV): ${p} CV fiscales]. *)
Inductive Note :=
| High_power_note (fiscalPower : float)
| Resident_discount_note.

(** The returned object; [taxRate_pct] is [taxRate * 100], which the code
    renders with [toFixed(1)] followed by [%]. *)
Record CalcResult := mkResult {
  r_car : Car;
  r_region : string;
  r_taxRate_pct : float;
  r_calculatedTax : float;
  r_fiscalValue : float;
  r_notes : option (list Note)
}.

(** Ways the mutation throws: the [Car not found] error, or [db.insert]
    refusing a [transfers] document whose [taxRate] is not a number. *)
Inductive MutationError := CarNotFound | InvalidTransferDocument.

Definition is_ceuta_melilla (region : string) : bool :=
  String.eqb region "Ceuta" || String.eqb region "Melilla".

(** [car.fiscalPower > HIGH_POWER_CV_THRESHOLD] in a high-power region. *)
Definition high_power (region : string) (car : Car) : bool :=
  JS.includes HIGH_POWER_REGIONS region
  && PrimFloat.ltb HIGH_POWER_CV_THRESHOLD car.(fiscalPower).

Definition resident_applies (region : string) (isResident : option bool) : bool :=
  is_ceuta_melilla region && match isResident with Some b => b | None => false end.

(** Line 91: [REGIONAL_TAX_RATES[region] || DEFAULT_TAX_RATE]. *)
Definition base_rate (region : string) : JS.jsval :=
  JS.or (JS.get REGIONAL_TAX_RATES region) (JS.JSNumber DEFAULT_TAX_RATE).

(** Lines 93-96: the high-power override. *)
Definition surcharged_rate (region : string) (car : Car) : JS.jsval :=
  if high_power region car then JS.JSNumber HIGH_POWER_TAX_RATE
  else base_rate region.

(** Lines 98-101: the resident bonification, [taxRate * 0.5]. *)
Definition resolved_rate (region : string) (car : Car) (isResident : option bool)
    : JS.jsval :=
  let r := surcharged_rate region car in
  if resident_applies region isResident
  then JS.JSNumber (JS.mul r (JS.JSNumber 0.5%float))
  else r.

(** Line 104: [Math.round(car.fiscalValue * taxRate * 100) / 100]. *)
Definition round_tax (fiscalValue : float) (taxRate : JS.jsval) : float :=
  PrimFloat.div
    (JS.math_round
       (PrimFloat.mul (JS.mul (JS.JSNumber fiscalValue) taxRate) 100%float))
    100%float.

Definition build_notes (region : string) (car : Car) (isResident : option bool)
    : list Note :=
  (if high_power region car then [High_power_note car.(fiscalPower)] else [])
  ++ (if resident_applies region isResident then [Resident_discount_note] else []).

(** [notes.length > 0 ? notes : undefined] *)
Definition opt_notes (notes : list Note) : option (list Note) :=
  match notes with [] => None | _ => Some notes end.

(** The mutation [calculateTransferTax], run as a Convex transaction at
    time [now]: a thrown error leaves [db] as it was. *)
Definition calculateTransferTax (db : Db) (now : Z) (args : CalcArgs)
    : Db * (MutationError + CalcResult) :=
  match db.(cars) !! args.(arg_carId) with
  | None => (db, inl CarNotFound)
  | Some car =>
      let region := JS.or_string args.(arg_region) "Madrid" in
      let taxRate := resolved_rate region car args.(arg_isResident) in
      let calculatedTax := round_tax car.(fiscalValue) taxRate in
      match taxRate with
      | JS.JSNumber rate =>
          let db' := mkDb db.(cars)
                       (db.(transfers) ++
                        [mkTransfer args.(arg_carId) region calculatedTax rate now]) in
          let notes := build_notes region car args.(arg_isResident) in
          (db', inr (mkResult car region (JS.mul taxRate (JS.JSNumber 100%float))
                       calculatedTax car.(fiscalValue)
                       (opt_notes notes)))
      | _ => (db, inl InvalidTransferDocument)
      end
  end.

(** ** convex/http.ts: POST /api/calculateTransferTax *)

(** The parsed JSON request body. *)
Record RequestBody := mkBody {
  body_carId : option string;
  body_region : option string;
  body_isResident : option bool
}.

Inductive HttpResponse :=
| Http200 (result : CalcResult)
| HttpError (status : Z) (error : string).

(** Lines 43-69: only [carId] and [region] are read from the body and
    passed to the mutation. *)
Definition http_calculateTransferTax (db : Db) (now : Z) (body : RequestBody)
    : Db * HttpResponse :=
  match body.(body_carId) with
  | None => (db, HttpError 400 "Car ID is required")
  | Some carId =>
      if String.eqb carId "" then (db, HttpError 400 "Car ID is required")
      else
        match calculateTransferTax db now (mkArgs carId body.(body_region) None) with
        | (db', inl _) => (db', HttpError 500 "Failed to calculate tax")
        | (db', inr r) => (db', Http200 r)
        end
  end%Z.

End Convex.

(** ** bot.ts: the dialogue state machine *)
Module Bot.

Local Open Scope Z_scope.

(** *** Text helpers *)

Definition is_ws (c : Ascii.ascii) : bool :=
  match Ascii.nat_of_ascii c with
  | 9 | 10 | 11 | 12 | 13 | 32 => true
  | _ => false
  end%nat.

Fixpoint skip_ws (s : string) : string :=
  match s with
  | String c s' => if is_ws c then skip_ws s' else s
  | EmptyString => s
  end.

(** Value of [c] as a digit in [radix] (10 or 16), if it is one. *)
Definition digit_val (radix : Z) (c : Ascii.ascii) : option Z :=
  let n := Z.of_nat (Ascii.nat_of_ascii c) in
  let v := if (48 <=? n) && (n <=? 57) then Some (n - 48)
           else if (97 <=? n) && (n <=? 122) then Some (n - 87)
           else if (65 <=? n) && (n <=? 90) then Some (n - 55)
           else None in
  match v with
  | Some d => if d <? radix then Some d else None
  | None => None
  end%Z.

(** The longest run of [radix] digits at the head of [s]; [None] when
    there is none. *)
Fixpoint read_digits (radix : Z) (s : string) (acc : option Z) : option Z :=
  match s with
  | String c s' =>
      match digit_val radix c with
      | Some d => read_digits radix s' (Some (radix * default 0 acc + d)%Z)
      | None => acc
      end
  | EmptyString => acc
  end.

(** [parseInt(s)] without a radix: leading white space, an optional sign,
    an optional [0x]/[0X] prefix selecting base 16, then the longest digit
    prefix.  [None] is NaN.  The mathematical value is kept exact: -0 is 0
    and values beyond 2^53 are not rounded, neither of which changes a
    comparison with the bounds the bot uses. *)
Definition parseInt (input : string) : option Z :=
  let s := skip_ws input in
  let '(sign, s) :=
    match s with
    | String c s' =>
        if Ascii.eqb c "-"%char then ((-1)%Z, s')
        else if Ascii.eqb c "+"%char then (1%Z, s')
        else (1%Z, s)
    | EmptyString => (1%Z, s)
    end in
  let '(radix, s) :=
    match s with
    | String z (String x s') =>
        if Ascii.eqb z "0"%char && (Ascii.eqb x "x"%char || Ascii.eqb x "X"%char)
        then (16%Z, s') else (10%Z, s)
    | _ => (10%Z, s)
    end in
  option_map (Z.mul sign) (read_digits radix s None).

(** [toLowerCase] on ASCII letters; other bytes are kept, which is exact on
    the region names (their only non-ASCII letters are already lower
    case). *)
Definition lower_char (c : Ascii.ascii) : Ascii.ascii :=
  let n := Ascii.nat_of_ascii c in
  if (65 <=? n)%nat && (n <=? 90)%nat then Ascii.ascii_of_nat (n + 32) else c.

Fixpoint toLowerCase (s : string) : string :=
  match s with
  | String c s' => String (lower_char c) (toLowerCase s')
  | EmptyString => EmptyString
  end.

(** [hay.includes(needle)] *)
Fixpoint includes (hay needle : string) : bool :=
  String.prefix needle hay ||
  match hay with
  | String _ hay' => includes hay' needle
  | EmptyString => false
  end.

(** *** Data *)

Module Step.
Inductive t := welcome | maker | year | model_selection | region | resident_check | complete.
End Step.

(** An element of a search result as the bot reads it.  [id] is the
    property [car.id] (undefined when absent). *)
Module CarEntry.
Record t := mk {
  id : option string;
  model : string;
  year : Z;
  fiscalValue : float;
  fiscalPower : float;
  maker : option string
}.
End CarEntry.

Record UserSession := mkSession {
  step : Step.t;
  maker : option string;
  year : option Z;
  cars : option (list CarEntry.t);
  selectedCarId : option string;
  region : option string
}.

Record RegionEntry := mkRegion { name : string; rate : string; note : string }.

(** Lines 22-43. *)
Definition SPANISH_REGIONS : list RegionEntry :=
  [mkRegion "Galicia" "3%" "⭐ ¡Más barato!";
   mkRegion "Andalucía" "4%" "(8% si >15 CV)";
   mkRegion "Aragón" "4%" "";
   mkRegion "Asturias" "4%" "(8% si >15 CV)";
   mkRegion "Baleares" "4%" "(8% si >15 CV)";
   mkRegion "La Rioja" "4%" "";
   mkRegion "Madrid" "4%" "";
   mkRegion "Murcia" "4%" "";
   mkRegion "Navarra" "4%" "";
   mkRegion "País Vasco" "4%" "";
   mkRegion "Ceuta" "4%" "(2% residentes)";
   mkRegion "Melilla" "4%" "(2% residentes)";
   mkRegion "Castilla y León" "5%" "(8% si >15 CV)";
   mkRegion "Canarias" "5.5%" "";
   mkRegion "Cataluña" "5%" "";
   mkRegion "Castilla-La Mancha" "6%" "";
   mkRegion "Comunidad Valenciana" "6%" "(8% si >2000cc)";
   mkRegion "Extremadura" "6%" "";
   mkRegion "Cantabria" "8%" "⚠️ Más caro"].

(** The replies, by the template they are rendered from. *)
Inductive Reply :=
| welcome_text
| help_text
| rates_text (shown : list RegionEntry)
| ask_year (maker : string)
| invalid_year
| no_cars_found
| search_error
| ask_model (listed : list CarEntry.t) (found : nat)
| invalid_model (count : nat)
| ask_region_for (car : CarEntry.t)
| unknown_region
| ask_resident (region : string)
| calc_result (result : Convex.CalcResult)
| calc_error
| maker_prompt.

(** Outcome of [fetch(...)] followed by [response.json()]: the fetch
    rejects, the body is not JSON, the body is an [{ error }] object (what
    the routes send on failure), or the expected value. *)
Inductive Fetch (A : Type) :=
| fetch_rejects
| json_rejects
| json_error_object
| json_value (v : A).
Arguments fetch_rejects {A}.
Arguments json_rejects {A}.
Arguments json_error_object {A}.
Arguments json_value {A} v.

Abbreviation Sessions := (gmap string UserSession).

Definition welcome_session : UserSession :=
  mkSession Step.welcome None None None None None.

Definition is_reset (text : string) : bool :=
  String.eqb text "reset" || String.eqb text "inicio"
  || String.eqb text "restart" || String.eqb text "empezar".
Definition is_help (text : string) : bool :=
  String.eqb text "ayuda" || String.eqb text "help".
Definition is_rates (text : string) : bool :=
  String.eqb text "tasas" || String.eqb text "precios" || String.eqb text "tarifas".
Definition is_affirmative (text : string) : bool :=
  String.eqb text "si" || String.eqb text "sí"
  || String.eqb text "yes" || String.eqb text "s".

(** [x || y] on a year. *)
Definition year_or (y : option Z) (d : Z) : Z :=
  match y with Some v => if (v =? 0)%Z then d else v | None => d end.

Section Dialogue.

(** GET /api/searchCars?maker=..&year=.. *)
Variable search : string -> option Z -> Fetch (list CarEntry.t).
(** POST /api/calculateTransferTax with the JSON body. *)
Variable calculate : Convex.RequestBody -> Fetch Convex.CalcResult.

(** Lines 247-298.  The session is deleted once a JSON body has been read;
    rendering the reply then reads [result.car.maker], which throws on an
    [{ error }] body. *)
Definition calculateAndReply (sessions : Sessions) (phoneNumber : string)
    (session : UserSession) (region : option string) (isResident : bool)
    : Sessions * Reply :=
  match calculate (Convex.mkBody session.(selectedCarId) region (Some isResident)) with
  | fetch_rejects | json_rejects => (sessions, calc_error)
  | json_error_object => (delete phoneNumber sessions, calc_error)
  | json_value r => (delete phoneNumber sessions, calc_result r)
  end.

(** Lines 102-168. *)
Definition year_step (sessions : Sessions) (phoneNumber : string)
    (session : UserSession) (text : string) : Sessions * Reply :=
  let skip := String.eqb text "saltar" in
  let yr := if skip then None else parseInt text in
  if negb skip && match yr with
                  | None => true
                  | Some y => (y <? 1990)%Z || (2026 <? y)%Z
                  end
  then (sessions, invalid_year)
  else
    let yparam := match yr with Some y => if (y =? 0)%Z then None else Some y | None => None end in
    match search (default "undefined" session.(maker)) yparam with
    | fetch_rejects | json_rejects | json_error_object => (sessions, search_error)
    | json_value cs =>
        match cs with
        | [] => (<[phoneNumber := mkSession Step.maker None None None None None]> sessions,
                 no_cars_found)
        | [c] =>
            (<[phoneNumber := mkSession Step.region session.(maker)
                                (Some (year_or yr c.(CarEntry.year))) session.(cars)
                                c.(CarEntry.id) session.(region)]> sessions,
             ask_region_for c)
        | c :: _ =>
            (<[phoneNumber := mkSession Step.model_selection session.(maker)
                                (Some (year_or yr c.(CarEntry.year))) (Some (firstn 10 cs))
                                session.(selectedCarId) session.(region)]> sessions,
             ask_model (firstn 10 cs) (List.length cs))
        end
    end.

(** Lines 170-190. *)
Definition model_selection_step (sessions : Sessions) (phoneNumber : string)
    (session : UserSession) (text : string) : Sessions * Reply :=
  let listed := default [] session.(cars) in
  let n := List.length listed in
  match parseInt text with
  | None => (sessions, invalid_model n)
  | Some k =>
      if (k <? 1)%Z || (Z.of_nat n <? k)%Z then (sessions, invalid_model n)
      else
        match nth_error listed (Z.to_nat (k - 1)) with
        | Some c =>
            (<[phoneNumber := mkSession Step.region session.(maker) session.(year)
                                session.(cars) c.(CarEntry.id) session.(region)]> sessions,
             ask_region_for c)
        | None => (sessions, invalid_model n)
        end
  end.

(** Lines 196-209: the number [1..19] first, then the first entry whose
    lower-cased name contains the text or is contained in it. *)
Definition match_region (text : string) : option RegionEntry :=
  let byNumber :=
    match parseInt text with
    | Some k => if (1 <=? k)%Z && (k <=? Z.of_nat (List.length SPANISH_REGIONS))%Z
                then nth_error SPANISH_REGIONS (Z.to_nat (k - 1)) else None
    | None => None
    end in
  match byNumber with
  | Some r => Some r
  | None =>
      find (fun r => includes (toLowerCase r.(name)) text
                     || includes text (toLowerCase r.(name))) SPANISH_REGIONS
  end.

(** Lines 192-230. *)
Definition region_step (sessions : Sessions) (phoneNumber : string)
    (session : UserSession) (text : string) : Sessions * Reply :=
  match match_region text with
  | None => (sessions, unknown_region)
  | Some r =>
      if Convex.is_ceuta_melilla r.(name) then
        (<[phoneNumber := mkSession Step.resident_check session.(maker) session.(year)
                            session.(cars) session.(selectedCarId) (Some r.(name))]> sessions,
         ask_resident r.(name))
      else calculateAndReply sessions phoneNumber session (Some r.(name)) false
  end.

(** The [switch (session.step)] of [onMessage] (lines 91-243). *)
Definition dispatch (sessions : Sessions) (phoneNumber : string)
    (session : UserSession) (text : string) : Sessions * Reply :=
  match session.(step) with
  | Step.welcome | Step.maker =>
      (<[phoneNumber := mkSession Step.year (Some text) None None None None]> sessions,
       ask_year text)
  | Step.year => year_step sessions phoneNumber session text
  | Step.model_selection => model_selection_step sessions phoneNumber session text
  | Step.region => region_step sessions phoneNumber session text
  | Step.resident_check =>
      calculateAndReply sessions phoneNumber session session.(region)
        (is_affirmative text)
  | Step.complete =>
      (<[phoneNumber := mkSession Step.maker None None None None None]> sessions,
       maker_prompt)
  end.

(** [onMessage] (lines 46-244) on the message text already lower-cased and
    trimmed (line 48): the reset, help and rates commands first, then the
    step of the session (a fresh [welcome] session when there is none). *)
Definition onMessage (sessions : Sessions) (phoneNumber text : string)
    : Sessions * Reply :=
  let session := default welcome_session (sessions !! phoneNumber) in
  if is_reset text then (delete phoneNumber sessions, welcome_text)
  else if is_help text then (sessions, help_text)
  else if is_rates text then (sessions, rates_text SPANISH_REGIONS)
  else dispatch sessions phoneNumber session text.

End Dialogue.

End Bot.

(** ** Reading of the specification's terms *)
Module SpecTerms.

Local Open Scope Z_scope.

(** A displayed rate such as ["5.5%"]: digits, optionally a point and more
    digits, then ["%"]; [Some (num, scale)] is [num / 10^scale] percent. *)
Fixpoint read_percent (s : string) (num : Z) (scale : option nat)
    : option (Z * nat) :=
  match s with
  | String c s' =>
      if Ascii.eqb c "%"%char then
        match s' with
        | EmptyString => Some (num, default 0%nat scale)
        | _ => None
        end
      else if Ascii.eqb c "."%char then
        match scale with
        | None => read_percent s' num (Some 0%nat)
        | Some _ => None
        end
      else
        match Bot.digit_val 10 c with
        | Some d => read_percent s' (10 * num + d) (option_map S scale)
        | None => None
        end
  | EmptyString => None
  end.

Definition percent (s : string) : option (Z * nat) := read_percent s 0 None.

Definition percent_le (a b : string) : bool :=
  match percent a, percent b with
  | Some (x, i), Some (y, j) => x * 10 ^ Z.of_nat j <=? y * 10 ^ Z.of_nat i
  | _, _ => false
  end.

(** Adjacent entries are in non-decreasing order of displayed rate. *)
Fixpoint rates_ascending (l : list Bot.RegionEntry) : bool :=
  match l with
  | a :: ((b :: _) as t) => percent_le a.(Bot.rate) b.(Bot.rate) && rates_ascending t
  | _ => true
  end.

(** The exact value of a finite float. *)
Definition float_to_Q (f : float) : option Q :=
  match Prim2SF f with
  | S754_zero _ => Some 0%Q
  | S754_finite s m e =>
      let k := if s then Z.neg m else Z.pos m in
      if 0 <=? e then Some (inject_Z (k * 2 ^ e))
      else Some (Qmake k (Z.to_pos (2 ^ (- e))))
  | _ => None
  end.

(** Exact rounding to cents, half up: [floor(100·x + 1/2) / 100]. *)
Definition round2_half_up (x : Q) : Q :=
  Qmake (Qfloor (Qplus (Qmult x (inject_Z 100)) (Qmake 1 2))) 100.

Definition is_command (text : string) : bool :=
  Bot.is_reset text || Bot.is_help text || Bot.is_rates text.

(** The invariant on the [cars] field of a session. *)
Definition cars_ok (s : Bot.UserSession) : Prop :=
  match s.(Bot.cars) with
  | Some l => (List.length l <= 10)%nat
  | None => True
  end.

Definition sessions_ok (sessions : Bot.Sessions) : Prop :=
  map_Forall (fun _ s => cars_ok s) sessions.

End SpecTerms.

(** ** Sample data *)
Module Samples.

(** The seeded 2020 Toyota Corolla (seedMockData). *)
Definition corolla : Convex.Car :=
  Convex.mkCar "toyota" "Corolla" 2020 12%float 18000%float Convex.hybrid.

Definition db : Convex.Db := Convex.mkDb (<["c1" := corolla]> ∅) [].

(** A car of fiscal value 23 EUR. *)
Definition cheap_car : Convex.Car :=
  Convex.mkCar "fiat" "500" 2019 7%float 23%float Convex.gasoline.

Definition cheap_db : Convex.Db := Convex.mkDb (<["c2" := cheap_car]> ∅) [].

Definition entry1 : Bot.CarEntry.t :=
  Bot.CarEntry.mk (Some "c1") "Corolla" 2020 18000%float 12%float (Some "toyota").
Definition entry2 : Bot.CarEntry.t :=
  Bot.CarEntry.mk (Some "c4") "Land Cruiser" 2020 55000%float 20%float (Some "toyota").

Definition session_at (st : Bot.Step.t) : Bot.UserSession :=
  Bot.mkSession st (Some "toyota") (Some 2020%Z) (Some [entry1; entry2])
    (Some "c1") (Some "Ceuta").

Definition store_at (st : Bot.Step.t) : Bot.Sessions := <["34600"  := session_at st]> ∅.

Definition no_search : string -> option Z -> Bot.Fetch (list Bot.CarEntry.t) :=
  fun _ _ => Bot.fetch_rejects.
Definition calc_rejects : Convex.RequestBody -> Bot.Fetch Convex.CalcResult :=
  fun _ => Bot.fetch_rejects.
Definition calc_error_body : Convex.RequestBody -> Bot.Fetch Convex.CalcResult :=
  fun _ => Bot.json_error_object.

End Samples.

(** ** convex/cars.ts: the [searchCars] query and the seed;
    convex/http.ts: GET /api/searchCars *)
Module Search.

Import Convex.

(** The [cars] table as its documents [(_id, fields)] in creation order. *)
Abbreviation Table := (list (string * Car)).

(** [trimEnd]: drop the trailing run of white space. *)
Fixpoint trim_end (s : string) : string :=
  match s with
  | EmptyString => EmptyString
  | String c s' =>
      let t := trim_end s' in
      if Bot.is_ws c && String.eqb t "" then "" else String c t
  end.

(** [String.prototype.trim] on the ASCII white space of [Bot.is_ws]. *)
Definition trim (s : string) : string := trim_end (Bot.skip_ws s).

(** Line 53: [args.maker.toLowerCase().trim()]. *)
Definition normalize (maker : string) : string := trim (Bot.toLowerCase maker).

(** [args.year] is undefined ([None]) or a number: an integer [Some (Some y)]
    or NaN [Some None], which is what [parseInt] gives for a non-numeric
    text.  [if (args.year)] takes the numbers other than 0 and NaN. *)
Definition year_truthy (year : option (option Z)) : option Z :=
  match year with
  | Some (Some y) => if (y =? 0)%Z then None else Some y
  | _ => None
  end.

(** Lines 50-69.  Both indexes end with the creation time, so an equality
    lookup on [by_maker] or [by_maker_year] returns the matching documents
    in creation order. *)
Definition searchCars (table : Table) (maker : string) (year : option (option Z)) : Table :=
  let normalizedMaker := normalize maker in
  match year_truthy year with
  | Some y =>
      filter (fun d => String.eqb (snd d).(Convex.maker) normalizedMaker
                       && ((snd d).(Convex.year) =? y)%Z) table
  | None =>
      filter (fun d => String.eqb (snd d).(Convex.maker) normalizedMaker) table
  end.

Inductive SearchResponse :=
| search_ok (docs : Table)
| search_failed (status : Z) (error : string).

(** http.ts lines 6-37, on the query parameters as [searchParams.get]
    returns them ([None] for an absent one). *)
Definition http_searchCars (table : Table) (maker year : option string) : SearchResponse :=
  match maker with
  | None => search_failed 400 "Maker is required"
  | Some m =>
      if String.eqb m "" then search_failed 400 "Maker is required"
      else
        search_ok (searchCars table m
                     (match year with
                      | Some y => if String.eqb y "" then None else Some (Bot.parseInt y)
                      | None => None
                      end))
  end%Z.

(** The decimal digits of [n >= 0], in front of [acc]; [fuel] bounds the
    number of digits beyond the first. *)
Fixpoint decimal_digits (fuel : nat) (n : Z) (acc : string) : string :=
  let acc' := String (Ascii.ascii_of_nat (48 + Z.to_nat (n mod 10))) acc in
  match fuel with
  | O => acc'
  | S f => if (n <? 10)%Z then acc' else decimal_digits f (n / 10) acc'
  end.

(** [Number.prototype.toString()] of an integral number, which is plain
    decimal below 10^21 (the range the [fuel] of 20 covers). *)
Definition number_toString (z : Z) : string :=
  if (z <? 0)%Z then String "-" (decimal_digits 20 (- z) "")
  else decimal_digits 20 z "".

(** The [mockCars] of [seedMockData] (lines 170-214). *)
Definition mockCars : list Car :=
  [mkCar "toyota" "Corolla" 2020 12 18000 hybrid;
   mkCar "toyota" "Yaris" 2019 9 14000 hybrid;
   mkCar "toyota" "RAV4" 2021 15 32000 hybrid;
   mkCar "toyota" "Land Cruiser" 2020 20 55000 diesel;
   mkCar "seat" "Ibiza" 2018 9.5 12000 gasoline;
   mkCar "seat" "León" 2020 13 20000 gasoline;
   mkCar "seat" "Ateca" 2021 15 26000 diesel;
   mkCar "volkswagen" "Golf" 2019 11.5 19000 gasoline;
   mkCar "volkswagen" "Polo" 2020 9.5 15000 gasoline;
   mkCar "volkswagen" "Tiguan" 2021 15 32000 diesel;
   mkCar "renault" "Clio" 2019 9 13000 gasoline;
   mkCar "renault" "Captur" 2020 11 18000 gasoline;
   mkCar "renault" "Megane" 2018 13 16000 diesel;
   mkCar "bmw" "Serie 1" 2020 14 28000 gasoline;
   mkCar "bmw" "Serie 3" 2021 18.4 45000 diesel;
   mkCar "bmw" "X5" 2020 22 65000 diesel;
   mkCar "bmw" "X1" 2019 15 35000 diesel;
   mkCar "mercedes" "Clase A" 2020 13.6 32000 gasoline;
   mkCar "mercedes" "Clase C" 2021 17 45000 diesel;
   mkCar "mercedes" "Clase E" 2020 19 55000 diesel;
   mkCar "audi" "A3" 2019 15 29000 gasoline;
   mkCar "audi" "A4" 2020 19 38000 diesel;
   mkCar "audi" "Q3" 2021 15 40000 gasoline;
   mkCar "audi" "Q5" 2020 18 52000 diesel;
   mkCar "peugeot" "208" 2020 9 15000 gasoline;
   mkCar "peugeot" "3008" 2021 13 28000 diesel;
   mkCar "ford" "Fiesta" 2019 9 14000 gasoline;
   mkCar "ford" "Focus" 2020 12 20000 gasoline;
   mkCar "ford" "Kuga" 2021 14 28000 hybrid;
   mkCar "hyundai" "i30" 2020 11 18000 gasoline;
   mkCar "hyundai" "Tucson" 2021 13 28000 hybrid;
   mkCar "kia" "Ceed" 2020 11 17000 gasoline;
   mkCar "kia" "Sportage" 2021 13 27000 hybrid;
   mkCar "citroen" "C3" 2019 8.5 12000 gasoline;
   mkCar "citroen" "C4" 2020 11 19000 gasoline;
   mkCar "opel" "Corsa" 2020 9 13000 gasoline;
   mkCar "opel" "Astra" 2021 12 22000 gasoline;
   mkCar "fiat" "500" 2019 7 12000 gasoline;
   mkCar "fiat" "Tipo" 2020 10 16000 gasoline;
   mkCar "dacia" "Sandero" 2020 8 10000 gasoline;
   mkCar "dacia" "Duster" 2021 11 16000 gasoline;
   mkCar "tesla" "Model 3" 2021 0 45000 electric;
   mkCar "tesla" "Model Y" 2022 0 52000 electric].

Section Seed.

(** The id [ctx.db.insert] gives to the [k]-th car this mutation inserts. *)
Variable new_id : nat -> string.

(** [seedMockData] (lines 167-224): the new table and [{ count, cars }],
    where each entry of [cars] is [{ id, ...car }]. *)
Definition seedMockData (table : Table) : Table * (nat * Table) :=
  let inserted := imap (fun k car => (new_id k, car)) mockCars in
  ((table ++ inserted)%list, (List.length inserted, inserted)).

End Seed.


End Search.

(** ** convex/cars.ts: [getTaxRatesByRegion] and [getSpecialRules] *)
Module Rates.

(** [x.toFixed(1)] (ECMA-262 Number.prototype.toFixed): NaN and the
    infinities print as [Number::toString]; otherwise the sign, then the
    integer [n] closest to [10·|x|] (the larger one on a tie) written with
    one decimal.  [None]: [|x| >= 10^21], printed in exponent form, which
    is not modelled. *)
Definition toFixed1 (x : float) : option string :=
  match Prim2SF x with
  | S754_nan => Some "NaN"
  | S754_infinity s => Some (if s then "-Infinity" else "Infinity")
  | _ =>
      match SpecTerms.float_to_Q x with
      | None => None
      | Some q =>
          let sign := if negb (Qle_bool 0 q) then "-" else "" in
          let a := if Qle_bool 0 q then q else Qopp q in
          if Qle_bool (inject_Z (10 ^ 21)) a then None
          else
            let n := Qfloor (a * inject_Z 10 + Qmake 1 2) in
            Some (sign ++ Search.number_toString (n / 10) ++ "."
                  ++ String (Ascii.ascii_of_nat (48 + Z.to_nat (n mod 10))) "")
      end
  end%Z.

(** Lines 147-164, for the table's own region names, the only keys
    [getTaxRatesByRegion] passes. *)
Definition getSpecialRules (region : string) : option string :=
  JS.assoc region
    [("Andalucía", "8% si >15 CV");
     ("Asturias", "8% si >15 CV");
     ("Baleares", "8% si >15 CV, ciclomotores exentos");
     ("Canarias", "Cuotas fijas si >10 años");
     ("Cantabria", "Cuotas fijas €55-115 si antiguo");
     ("Castilla y León", "8% si >15 CV");
     ("Cataluña", "Exento si >10 años y <€40k");
     ("Ceuta", "2% para residentes (50% desc.)");
     ("Comunidad Valenciana", "8% si >2000cc");
     ("Extremadura", "4% vehículos comerciales");
     ("Galicia", "0% emisiones cero, cuotas fijas >15 años");
     ("Melilla", "2% para residentes (50% desc.)");
     ("Murcia", "Cuotas fijas si >12 años")].

Record RateRow := mkRow {
  row_region : string;
  row_rate : option string;
  row_specialRules : option string
}.

(** Lines 136-145: [Object.entries(REGIONAL_TAX_RATES)] in insertion
    order, the rate rendered as [`${(rate * 100).toFixed(1)}%`]. *)
Definition getTaxRatesByRegion : list RateRow :=
  map (fun '(region, rate) =>
         mkRow region
           (option_map (fun s => s ++ "%") (toFixed1 (PrimFloat.mul rate 100%float)))
           (getSpecialRules region))
    Convex.REGIONAL_TAX_RATES.

(** Displayed percentages with the same value, e.g. ["4%"] and ["4.0%"]. *)
Definition percent_eq (a b : string) : bool :=
  SpecTerms.percent_le a b && SpecTerms.percent_le b a.

End Rates.

(** ** The bot against this repository's own routes *)
Module Backend.

(** A [cars] document as [JSON.stringify] sends it and the bot reads it:
    the id is the [_id] property, so [car.id] is undefined. *)
Definition doc_entry (d : string * Convex.Car) : Bot.CarEntry.t :=
  Bot.CarEntry.mk None (snd d).(Convex.model) (snd d).(Convex.year)
    (snd d).(Convex.fiscalValue) (snd d).(Convex.fiscalPower)
    (Some (snd d).(Convex.maker)).

(** bot.ts lines 109-116: [maker] and, when truthy, [year.toString()] as
    query parameters of GET /api/searchCars, then [response.json()]. *)
Definition search_route (table : Search.Table) : string -> option Z -> Bot.Fetch (list Bot.CarEntry.t) :=
  fun maker year =>
    match Search.http_searchCars table (Some maker) (option_map Search.number_toString year) with
    | Search.search_ok docs => Bot.json_value (map doc_entry docs)
    | Search.search_failed _ _ => Bot.json_error_object
    end.

(** bot.ts lines 250-258: POST /api/calculateTransferTax, then
    [response.json()]. *)
Definition calculate_route (db : Convex.Db) (now : Z) : Convex.RequestBody -> Bot.Fetch Convex.CalcResult :=
  fun body =>
    match snd (Convex.http_calculateTransferTax db now body) with
    | Convex.Http200 r => Bot.json_value r
    | Convex.HttpError _ _ => Bot.json_error_object
    end.

(** No stored session holds a car id, neither selected nor listed. *)
Definition no_car_ids (sessions : Bot.Sessions) : Prop :=
  map_Forall (fun _ s => s.(Bot.selectedCarId) = None
                         /\ Forall (fun c => c.(Bot.CarEntry.id) = None) (default [] s.(Bot.cars)))
    sessions.

End Backend.

(** ** Shape of the stored sessions *)
Module Invariant.

(** No stored session is at [welcome] or [complete], and a session at
    [resident_check] is for Ceuta or Melilla. *)
Definition session_shape (s : Bot.UserSession) : Prop :=
  s.(Bot.step) <> Bot.Step.welcome /\ s.(Bot.step) <> Bot.Step.complete
  /\ (s.(Bot.step) = Bot.Step.resident_check ->
      s.(Bot.region) = Some "Ceuta" \/ s.(Bot.region) = Some "Melilla").

Definition store_shape (sessions : Bot.Sessions) : Prop :=
  map_Forall (fun _ s => session_shape s) sessions.

End Invariant.

(** * Claims *)

(** C1: the calculation route forwards [isResident] to the mutation, so a
    Ceuta resident gets the halved rate through the route as when the
    mutation is invoked directly.  The route reads only [carId] and
    [region]: its answer does not depend on [isResident], and on the seeded
    Corolla with Ceuta and [isResident = true] it reports 4 % and 720 where
    the mutation itself gives 2 % and 360. *)
Theorem C1_route_drops_isResident :
  (forall db now id reg b,
     Convex.http_calculateTransferTax db now (Convex.mkBody (Some id) reg b)
     = Convex.http_calculateTransferTax db now (Convex.mkBody (Some id) reg None)) /\
  (exists r,
     snd (Convex.http_calculateTransferTax Samples.db 0
            (Convex.mkBody (Some "c1") (Some "Ceuta") (Some true))) = Convex.Http200 r
     /\ r.(Convex.r_taxRate_pct) = 4%float /\ r.(Convex.r_calculatedTax) = 720%float) /\
  (exists r,
     snd (Convex.calculateTransferTax Samples.db 0
            (Convex.mkArgs "c1" (Some "Ceuta") (Some true))) = inr r
     /\ r.(Convex.r_taxRate_pct) = 2%float /\ r.(Convex.r_calculatedTax) = 360%float).
Proof.
  split; [|split].
  - intros db now id reg b. reflexivity.
  - eexists. split; [vm_compute; reflexivity | split; reflexivity].
  - eexists. split; [vm_compute; reflexivity | split; reflexivity].
Qed.

(** C2: the "rates" reply lists the region table in non-decreasing order of
    rate.  The reply shows [SPANISH_REGIONS] as it is, and there Canarias
    (5.5%) comes right before Cataluña (5%). *)
Theorem C2_rates_list_not_ascending :
  forall search calculate,
  Bot.onMessage search calculate ∅ "34600" "tasas"
    = (∅, Bot.rates_text Bot.SPANISH_REGIONS) /\
  SpecTerms.rates_ascending Bot.SPANISH_REGIONS = false /\
  nth_error Bot.SPANISH_REGIONS 13 = Some (Bot.mkRegion "Canarias" "5.5%" "") /\
  nth_error Bot.SPANISH_REGIONS 14 = Some (Bot.mkRegion "Cataluña" "5%" "") /\
  SpecTerms.percent_le "5.5%" "5%" = false.
Proof.
  intros search calculate.
  repeat split; vm_compute; reflexivity.
Qed.

(** C8: a region missing from the rate table resolves to the default 0.04
    with no notes and never errors.  Looking the region up in the object
    literal also finds the members of [Object.prototype]: for the region
    ["constructor"] the rate is the function [Object], and the mutation
    throws when it inserts the transfer record. *)
Theorem C8_prototype_key_region :
  Convex.base_rate "constructor" = JS.JSFunction "Object" /\
  Convex.calculateTransferTax Samples.db 0
    (Convex.mkArgs "c1" (Some "constructor") None)
  = (Samples.db, inl Convex.InvalidTransferDocument).
Proof. split; vm_compute; reflexivity. Qed.

(** ** The mutation *)

(** When the resolved rate is a number, the mutation appends one transfer
    record and returns the result built from that rate. *)
Lemma calculateTransferTax_number (db : Convex.Db) now id reg res car rate :
  db.(Convex.cars) !! id = Some car ->
  Convex.resolved_rate (JS.or_string reg "Madrid") car res = JS.JSNumber rate ->
  Convex.calculateTransferTax db now (Convex.mkArgs id reg res)
  = (Convex.mkDb db.(Convex.cars)
       (db.(Convex.transfers) ++
        [Convex.mkTransfer id (JS.or_string reg "Madrid")
           (Convex.round_tax car.(Convex.fiscalValue) (JS.JSNumber rate)) rate now]),
     inr (Convex.mkResult car (JS.or_string reg "Madrid")
            (JS.mul (JS.JSNumber rate) (JS.JSNumber 100%float))
            (Convex.round_tax car.(Convex.fiscalValue) (JS.JSNumber rate))
            car.(Convex.fiscalValue)
            (Convex.opt_notes (Convex.build_notes (JS.or_string reg "Madrid") car res)))).
Proof.
  intros Hcar Hrate. unfold Convex.calculateTransferTax. cbn [Convex.arg_carId Convex.arg_region Convex.arg_isResident].
  rewrite Hcar, Hrate. reflexivity.
Qed.

Lemma float_neq (a b : float) : Prim2SF a <> Prim2SF b -> a <> b.
Proof. intros H E. apply H. now rewrite E. Qed.

Lemma high_power_regions_not_ceuta_melilla (region : string) :
  In region Convex.HIGH_POWER_REGIONS -> Convex.is_ceuta_melilla region = false.
Proof. simpl. intros [<-|[<-|[<-|[<-|[]]]]]; reflexivity. Qed.

(** C4: in Andalucía, Asturias, Baleares and Castilla y León the mutation
    applies the fixed rate 0.08 and adds the high-power note exactly when
    [fiscalPower > 15]; otherwise it applies the region's base rate with no
    note.  [15 > 15] is false and [15.01 > 15] is true. *)
Theorem C4_high_power_surcharge :
  forall (db : Convex.Db) now id car region isResident,
  db.(Convex.cars) !! id = Some car ->
  In region Convex.HIGH_POWER_REGIONS ->
  let surcharge := PrimFloat.ltb Convex.HIGH_POWER_CV_THRESHOLD car.(Convex.fiscalPower) in
  let rate := if surcharge then Convex.HIGH_POWER_TAX_RATE
              else JS.to_number (Convex.base_rate region) in
  (rate = Convex.HIGH_POWER_TAX_RATE <-> surcharge = true) /\
  (exists r,
     Convex.calculateTransferTax db now (Convex.mkArgs id (Some region) isResident)
     = (Convex.mkDb db.(Convex.cars)
          (db.(Convex.transfers) ++
           [Convex.mkTransfer id region
              (Convex.round_tax car.(Convex.fiscalValue) (JS.JSNumber rate)) rate now]),
        inr r)
     /\ r.(Convex.r_notes)
        = (if surcharge then Some [Convex.High_power_note car.(Convex.fiscalPower)] else None)) /\
  PrimFloat.ltb Convex.HIGH_POWER_CV_THRESHOLD 15 = false /\
  PrimFloat.ltb Convex.HIGH_POWER_CV_THRESHOLD 15.01 = true.
Proof.
  intros db now id car region isResident Hcar Hin surcharge rate.
  assert (Hreg : JS.or_string (Some region) "Madrid" = region).
  { simpl in Hin. destruct Hin as [<-|[<-|[<-|[<-|[]]]]]; reflexivity. }
  assert (Hres : Convex.resident_applies region isResident = false).
  { unfold Convex.resident_applies. now rewrite high_power_regions_not_ceuta_melilla. }
  assert (Hhp : Convex.high_power region car = surcharge).
  { unfold Convex.high_power, surcharge.
    simpl in Hin. destruct Hin as [<-|[<-|[<-|[<-|[]]]]]; reflexivity. }
  assert (Hbase : Convex.base_rate region = JS.JSNumber (JS.to_number (Convex.base_rate region))).
  { simpl in Hin. destruct Hin as [<-|[<-|[<-|[<-|[]]]]]; reflexivity. }
  assert (Hrate : Convex.resolved_rate region car isResident = JS.JSNumber rate).
  { unfold Convex.resolved_rate, Convex.surcharged_rate, rate.
    rewrite Hres, Hhp. destruct surcharge; [reflexivity | exact Hbase]. }
  split; [|split; [|split]].
  - unfold rate. destruct surcharge; split; intros H; try reflexivity; try discriminate.
    exfalso. revert H. apply float_neq.
    simpl in Hin. destruct Hin as [<-|[<-|[<-|[<-|[]]]]]; vm_compute; discriminate.
  - rewrite <- Hreg in Hrate.
    rewrite (calculateTransferTax_number db now id (Some region) isResident car rate Hcar Hrate).
    rewrite Hreg. eexists; split; [reflexivity|]. simpl.
    unfold Convex.build_notes. rewrite Hhp, Hres. destruct surcharge; reflexivity.
  - reflexivity.
  - reflexivity.
Qed.

(** Witness of C4: the seeded Corolla (12 CV) in Andalucía. *)
Lemma C4_high_power_surcharge_witness :
  Samples.db.(Convex.cars) !! "c1" = Some Samples.corolla /\
  In "Andalucía" Convex.HIGH_POWER_REGIONS /\
  (exists r,
     Convex.calculateTransferTax Samples.db 0 (Convex.mkArgs "c1" (Some "Andalucía") None)
     = (Convex.mkDb Samples.db.(Convex.cars)
          [Convex.mkTransfer "c1" "Andalucía" 720%float 0.04%float 0], inr r)
     /\ r.(Convex.r_notes) = None).
Proof.
  assert (H1 : Samples.db.(Convex.cars) !! "c1" = Some Samples.corolla) by reflexivity.
  assert (H2 : In "Andalucía" Convex.HIGH_POWER_REGIONS) by (simpl; auto).
  split; [exact H1 | split; [exact H2 |]].
  destruct (C4_high_power_surcharge Samples.db 0 "c1" Samples.corolla "Andalucía" None H1 H2)
    as [_ [[r [E N]] _]].
  exists r. split; [rewrite E; vm_compute; reflexivity | rewrite N; reflexivity].
Defined.

(** C5: for Ceuta or Melilla with [isResident = true] the resolved rate is
    the rate after the surcharge step multiplied by 0.5 (0.04 becomes 0.02),
    the halving comes after the surcharge step for every region, and the
    two rules never meet: no high-power region is Ceuta or Melilla. *)
Theorem C5_resident_halving :
  forall (db : Convex.Db) now id car region,
  db.(Convex.cars) !! id = Some car ->
  region = "Ceuta" \/ region = "Melilla" ->
  Convex.high_power region car = false /\
  Convex.surcharged_rate region car = JS.JSNumber 0.04%float /\
  Convex.resolved_rate region car (Some true)
    = JS.JSNumber (JS.mul (Convex.surcharged_rate region car) (JS.JSNumber 0.5%float)) /\
  Convex.resolved_rate region car (Some true) = JS.JSNumber 0.02%float /\
  (exists r,
     Convex.calculateTransferTax db now (Convex.mkArgs id (Some region) (Some true))
     = (Convex.mkDb db.(Convex.cars)
          (db.(Convex.transfers) ++
           [Convex.mkTransfer id region
              (Convex.round_tax car.(Convex.fiscalValue) (JS.JSNumber 0.02%float))
              0.02%float now]),
        inr r)
     /\ r.(Convex.r_notes) = Some [Convex.Resident_discount_note]) /\
  (forall region' car' res,
     Convex.resolved_rate region' car' res
     = if Convex.resident_applies region' res
       then JS.JSNumber (JS.mul (Convex.surcharged_rate region' car') (JS.JSNumber 0.5%float))
       else Convex.surcharged_rate region' car') /\
  (forall region', In region' Convex.HIGH_POWER_REGIONS -> Convex.is_ceuta_melilla region' = false).
Proof.
  intros db now id car region Hcar Hreg.
  assert (Hhp : Convex.high_power region car = false)
    by (destruct Hreg as [-> | ->]; reflexivity).
  assert (Hs : Convex.surcharged_rate region car = JS.JSNumber 0.04%float)
    by (unfold Convex.surcharged_rate; rewrite Hhp; destruct Hreg as [-> | ->]; reflexivity).
  assert (Hr : Convex.resolved_rate region car (Some true) = JS.JSNumber 0.02%float).
  { unfold Convex.resolved_rate. rewrite Hs. destruct Hreg as [-> | ->]; reflexivity. }
  split; [exact Hhp|]. split; [exact Hs|].
  split; [unfold Convex.resolved_rate; destruct Hreg as [-> | ->]; reflexivity|].
  split; [exact Hr|]. split; [|split].
  - assert (Hm : JS.or_string (Some region) "Madrid" = region)
      by (destruct Hreg as [-> | ->]; reflexivity).
    rewrite <- Hm in Hr.
    rewrite (calculateTransferTax_number db now id (Some region) (Some true) car _ Hcar Hr).
    rewrite Hm. eexists; split; [reflexivity|]. simpl.
    unfold Convex.build_notes. rewrite Hhp. destruct Hreg as [-> | ->]; reflexivity.
  - intros. reflexivity.
  - apply high_power_regions_not_ceuta_melilla.
Qed.

(** Witness of C5: the seeded Corolla in Ceuta, resident. *)
Lemma C5_resident_halving_witness :
  Convex.resolved_rate "Ceuta" Samples.corolla (Some true) = JS.JSNumber 0.02%float /\
  snd (Convex.calculateTransferTax Samples.db 0 (Convex.mkArgs "c1" (Some "Ceuta") (Some true)))
  = inr (Convex.mkResult Samples.corolla "Ceuta" 2%float 360%float 18000%float
           (Some [Convex.Resident_discount_note])).
Proof.
  destruct (C5_resident_halving Samples.db 0 "c1" Samples.corolla "Ceuta"
              (eq_refl) (or_introl eq_refl)) as [_ [_ [_ [Hr [[r [E N]] _]]]]].
  split; [exact Hr|]. rewrite E. simpl.
  assert (Hc : Convex.calculateTransferTax Samples.db 0 (Convex.mkArgs "c1" (Some "Ceuta") (Some true))
               = (Convex.mkDb Samples.db.(Convex.cars)
                    [Convex.mkTransfer "c1" "Ceuta" 360%float 0.02%float 0],
                  inr (Convex.mkResult Samples.corolla "Ceuta" 2%float 360%float 18000%float
                         (Some [Convex.Resident_discount_note])))) by (vm_compute; reflexivity).
  rewrite E in Hc. inversion Hc. reflexivity.
Defined.

(** C6 counterexample: the tax is not the exact product rounded half up to
    cents.  A car of fiscal value 23 in Canarias: the exact product with the
    rate (the binary64 value of 0.055, or 5.5 % itself) is at least 1.265 and
    rounds half up to 1.27, but the mutation computes and records 1.26. *)
Lemma C6_cent_tie_rounds_down :
  exists (r : Convex.CalcResult) (rateQ taxQ : Q),
    Convex.calculateTransferTax Samples.cheap_db 0
      (Convex.mkArgs "c2" (Some "Canarias") (Some false))
    = (Convex.mkDb Samples.cheap_db.(Convex.cars)
         [Convex.mkTransfer "c2" "Canarias" 1.26%float 0.055%float 0], inr r) /\
    r.(Convex.r_calculatedTax) = 1.26%float /\
    SpecTerms.float_to_Q 0.055%float = Some rateQ /\
    SpecTerms.float_to_Q r.(Convex.r_calculatedTax) = Some taxQ /\
    Qeq_bool (SpecTerms.round2_half_up (Qmult (inject_Z 23) rateQ)) (127 # 100) = true /\
    Qeq_bool (SpecTerms.round2_half_up (Qmult (inject_Z 23) (55 # 1000))) (127 # 100) = true /\
    Qeq_bool taxQ (127 # 100) = false.
Proof.
  eexists. eexists. eexists.
  split; [vm_compute; reflexivity|].
  split; [reflexivity|].
  split; [vm_compute; reflexivity|].
  split; [vm_compute; reflexivity|].
  vm_compute. repeat split.
Qed.

(** C6 (amended): the tax is [Math.round(fiscalValue * rate * 100) / 100]
    computed in binary64, with the same rate that is recorded in the
    transfer; a fiscal value of 18000 in Madrid, non-resident, gives the
    rate 0.04 and exactly 720. *)
Theorem C6_tax_is_binary64_rounding :
  forall (db : Convex.Db) now id car reg res rate,
  db.(Convex.cars) !! id = Some car ->
  Convex.resolved_rate (JS.or_string reg "Madrid") car res = JS.JSNumber rate ->
  (exists r,
     Convex.calculateTransferTax db now (Convex.mkArgs id reg res)
     = (Convex.mkDb db.(Convex.cars)
          (db.(Convex.transfers) ++
           [Convex.mkTransfer id (JS.or_string reg "Madrid")
              (Convex.round_tax car.(Convex.fiscalValue) (JS.JSNumber rate)) rate now]),
        inr r)
     /\ r.(Convex.r_calculatedTax) = Convex.round_tax car.(Convex.fiscalValue) (JS.JSNumber rate)) /\
  Convex.round_tax car.(Convex.fiscalValue) (JS.JSNumber rate)
  = PrimFloat.div
      (JS.math_round (PrimFloat.mul (PrimFloat.mul car.(Convex.fiscalValue) rate) 100%float))
      100%float /\
  (forall car', car'.(Convex.fiscalValue) = 18000%float ->
     Convex.resolved_rate "Madrid" car' (Some false) = JS.JSNumber 0.04%float /\
     Convex.round_tax car'.(Convex.fiscalValue) (JS.JSNumber 0.04%float) = 720%float).
Proof.
  intros db now id car reg res rate Hcar Hrate. split; [|split].
  - rewrite (calculateTransferTax_number db now id reg res car rate Hcar Hrate).
    eexists; split; reflexivity.
  - reflexivity.
  - intros car' Hv. rewrite Hv. split; reflexivity.
Qed.

(** Witness of C6: the seeded Corolla in Madrid. *)
Lemma C6_tax_is_binary64_rounding_witness :
  exists r,
    Convex.calculateTransferTax Samples.db 0 (Convex.mkArgs "c1" (Some "Madrid") (Some false))
    = (Convex.mkDb Samples.db.(Convex.cars)
         [Convex.mkTransfer "c1" "Madrid" 720%float 0.04%float 0], inr r)
    /\ r.(Convex.r_calculatedTax) = 720%float.
Proof.
  destruct (C6_tax_is_binary64_rounding Samples.db 0 "c1" Samples.corolla (Some "Madrid")
              (Some false) 0.04%float eq_refl eq_refl) as [[r [E T]] _].
  exists r. rewrite E, T. split; vm_compute; reflexivity.
Defined.

(** C7: the mutation fails with [Car not found] exactly when the id is not
    a stored car; every failure leaves the database, and so the transfers
    log, unchanged; an absent region is the region "Madrid". *)
Theorem C7_not_found_and_default_region :
  forall (db : Convex.Db) now (args : Convex.CalcArgs),
  (snd (Convex.calculateTransferTax db now args) = inl Convex.CarNotFound
   <-> db.(Convex.cars) !! args.(Convex.arg_carId) = None) /\
  (forall e, snd (Convex.calculateTransferTax db now args) = inl e ->
     fst (Convex.calculateTransferTax db now args) = db) /\
  (args.(Convex.arg_region) = None ->
     Convex.calculateTransferTax db now args
     = Convex.calculateTransferTax db now
         (Convex.mkArgs args.(Convex.arg_carId) (Some "Madrid") args.(Convex.arg_isResident))).
Proof.
  intros db now [id reg res]. cbn [Convex.arg_carId Convex.arg_region Convex.arg_isResident].
  unfold Convex.calculateTransferTax; cbn [Convex.arg_carId Convex.arg_region Convex.arg_isResident].
  destruct (db.(Convex.cars) !! id) as [car|] eqn:Hc.
  - split; [|split].
    + split; [|discriminate].
      destruct (Convex.resolved_rate _ car res); simpl; discriminate.
    + intros e. destruct (Convex.resolved_rate _ car res); simpl; congruence.
    + intros ->. reflexivity.
  - split; [split; reflexivity|split].
    + reflexivity.
    + reflexivity.
Qed.

(** ** The dialogue *)

Lemma onMessage_not_command search calculate (sessions : Bot.Sessions) phone text s :
  sessions !! phone = Some s -> SpecTerms.is_command text = false ->
  Bot.onMessage search calculate sessions phone text
  = Bot.dispatch search calculate sessions phone s text.
Proof.
  intros Hs Hc. unfold SpecTerms.is_command in Hc.
  apply orb_false_elim in Hc as [Hc Hr]. apply orb_false_elim in Hc as [Hre Hh].
  unfold Bot.onMessage. rewrite Hs. simpl. now rewrite Hre, Hh, Hr.
Qed.

(** C3: a failed calculation call leaves the session as it was, for a
    retry.  At [resident_check], a calculation call that answers with an
    [{ error }] body gives the generic error reply, but the session has
    been deleted before the reply failed to render. *)
Lemma C3_error_body_deletes_session :
  Samples.store_at Bot.Step.resident_check !! "34600"
    = Some (Samples.session_at Bot.Step.resident_check) /\
  snd (Bot.onMessage Samples.no_search Samples.calc_error_body
         (Samples.store_at Bot.Step.resident_check) "34600" "si") = Bot.calc_error /\
  fst (Bot.onMessage Samples.no_search Samples.calc_error_body
         (Samples.store_at Bot.Step.resident_check) "34600" "si") !! "34600" = None.
Proof. repeat split; vm_compute; reflexivity. Qed.

(** When the region step (for a region other than Ceuta and Melilla) or
    the resident_check step calls the calculation service and the call
    rejects or its body is not JSON, the reply is the generic error and the
    sessions are unchanged; when the body is an [{ error }] object, the
    reply is the generic error and the session has been deleted. *)
Theorem calculation_call_failure :
  forall search (sessions : Bot.Sessions) phone text s,
  sessions !! phone = Some s ->
  SpecTerms.is_command text = false ->
  s.(Bot.step) = Bot.Step.resident_check \/
  (s.(Bot.step) = Bot.Step.region /\
   exists r, Bot.match_region text = Some r /\ Convex.is_ceuta_melilla r.(Bot.name) = false) ->
  (forall calculate,
     (forall b, calculate b = Bot.fetch_rejects \/ calculate b = Bot.json_rejects) ->
     Bot.onMessage search calculate sessions phone text = (sessions, Bot.calc_error)) /\
  (forall calculate,
     (forall b, calculate b = Bot.json_error_object) ->
     Bot.onMessage search calculate sessions phone text
     = (delete phone sessions, Bot.calc_error)).
Proof.
  intros search sessions phone text s Hs Hc Hstep.
  split; intros calculate Hcalc;
    rewrite (onMessage_not_command search calculate sessions phone text s Hs Hc);
    unfold Bot.dispatch;
    (destruct Hstep as [-> | [-> [r [Hm Hcm]]]];
     [| unfold Bot.region_step; rewrite Hm, Hcm]);
    unfold Bot.calculateAndReply;
    match goal with |- context [calculate ?b] =>
      first [ destruct (Hcalc b) as [-> | ->] | rewrite (Hcalc b) ] end;
    reflexivity.
Qed.

(** C9 counterexample: at the year step the input "reset" is not "saltar"
    and is not a number, yet it does not re-prompt: it deletes the
    session and sends the welcome text. *)
Lemma C9_reset_at_year_step :
  Bot.parseInt "reset" = None /\
  Samples.store_at Bot.Step.year !! "34600" = Some (Samples.session_at Bot.Step.year) /\
  snd (Bot.onMessage Samples.no_search Samples.calc_rejects
         (Samples.store_at Bot.Step.year) "34600" "reset") = Bot.welcome_text /\
  fst (Bot.onMessage Samples.no_search Samples.calc_rejects
         (Samples.store_at Bot.Step.year) "34600" "reset") !! "34600" = None.
Proof. repeat split; vm_compute; reflexivity. Qed.

(** C9 (amended): at the year step, an input that is not one of the
    reset, help or rates commands, is not "saltar", and whose [parseInt]
    is NaN or outside [1990, 2026] gets the invalid-year re-prompt and
    leaves the sessions unchanged (the step stays [year]). *)
Theorem C9_invalid_year_reprompts :
  forall search calculate (sessions : Bot.Sessions) phone text s,
  sessions !! phone = Some s ->
  s.(Bot.step) = Bot.Step.year ->
  SpecTerms.is_command text = false ->
  text <> "saltar" ->
  (Bot.parseInt text = None \/
   exists y, Bot.parseInt text = Some y /\ (y < 1990 \/ 2026 < y)%Z) ->
  Bot.onMessage search calculate sessions phone text = (sessions, Bot.invalid_year).
Proof.
  intros search calculate sessions phone text s Hs Hstep Hc Hsk Hy.
  rewrite (onMessage_not_command search calculate sessions phone text s Hs Hc).
  unfold Bot.dispatch. rewrite Hstep. unfold Bot.year_step.
  apply String.eqb_neq in Hsk. rewrite Hsk. simpl.
  destruct Hy as [-> | [y [-> [Hlt | Hgt]]]]; [reflexivity | |].
  - apply Z.ltb_lt in Hlt. now rewrite Hlt.
  - apply Z.ltb_lt in Hgt. now rewrite Hgt, orb_true_r.
Qed.

(** Witness of C9: "abc" at the year step. *)
Lemma C9_invalid_year_reprompts_witness :
  Bot.onMessage Samples.no_search Samples.calc_rejects
    (Samples.store_at Bot.Step.year) "34600" "abc"
  = (Samples.store_at Bot.Step.year, Bot.invalid_year).
Proof.
  apply (C9_invalid_year_reprompts Samples.no_search Samples.calc_rejects
           (Samples.store_at Bot.Step.year) "34600" "abc" (Samples.session_at Bot.Step.year)).
  - reflexivity.
  - reflexivity.
  - reflexivity.
  - discriminate.
  - left. reflexivity.
Defined.

Lemma sessions_ok_insert (sessions : Bot.Sessions) k s :
  SpecTerms.sessions_ok sessions -> SpecTerms.cars_ok s ->
  SpecTerms.sessions_ok (<[k := s]> sessions).
Proof. intros H Hs. by apply map_Forall_insert_2. Qed.

Lemma sessions_ok_delete (sessions : Bot.Sessions) k :
  SpecTerms.sessions_ok sessions -> SpecTerms.sessions_ok (delete k sessions).
Proof. apply map_Forall_delete. Qed.

Create HintDb sessions.
#[local] Hint Resolve sessions_ok_insert sessions_ok_delete : sessions.

Lemma calculateAndReply_ok calculate (sessions : Bot.Sessions) phone s reg res :
  SpecTerms.sessions_ok sessions ->
  SpecTerms.sessions_ok (fst (Bot.calculateAndReply calculate sessions phone s reg res)).
Proof.
  intros H. unfold Bot.calculateAndReply.
  destruct (calculate _); simpl; auto with sessions.
Qed.

#[local] Hint Resolve calculateAndReply_ok : sessions.

(** Every transition keeps the [cars] of every session within 10 entries. *)
Lemma onMessage_sessions_ok search calculate (sessions : Bot.Sessions) phone text :
  SpecTerms.sessions_ok sessions ->
  SpecTerms.sessions_ok (fst (Bot.onMessage search calculate sessions phone text)).
Proof.
  intros Hok.
  assert (Hs : SpecTerms.cars_ok (default Bot.welcome_session (sessions !! phone))).
  { destruct (sessions !! phone) as [s|] eqn:E; simpl; [|exact I].
    exact (map_Forall_lookup_1 _ _ _ _ Hok E). }
  unfold Bot.onMessage.
  destruct (Bot.is_reset text); [simpl; auto with sessions|].
  destruct (Bot.is_help text); [exact Hok|].
  destruct (Bot.is_rates text); [exact Hok|].
  revert Hs. generalize (default Bot.welcome_session (sessions !! phone)). intros s Hs.
  unfold Bot.dispatch. destruct (Bot.step s).
  - apply sessions_ok_insert; [exact Hok | exact I].
  - apply sessions_ok_insert; [exact Hok | exact I].
  - unfold Bot.year_step.
    destruct (_ && _); [exact Hok|].
    destruct (search _ _) as [| | |cs]; try exact Hok.
    destruct cs as [|c [|c' cs']]; simpl.
    + apply sessions_ok_insert; [exact Hok | exact I].
    + apply sessions_ok_insert; [exact Hok | exact Hs].
    + apply sessions_ok_insert; [exact Hok|].
      unfold SpecTerms.cars_ok; simpl.
      pose proof (firstn_le_length 8 cs'). lia.
  - unfold Bot.model_selection_step.
    destruct (Bot.parseInt text); [|exact Hok].
    destruct (_ || _); [exact Hok|].
    destruct (nth_error _ _); [|exact Hok].
    apply sessions_ok_insert; [exact Hok | exact Hs].
  - unfold Bot.region_step.
    destruct (Bot.match_region text) as [r|]; [|exact Hok].
    destruct (Convex.is_ceuta_melilla _); [|auto with sessions].
    apply sessions_ok_insert; [exact Hok | exact Hs].
  - auto with sessions.
  - apply sessions_ok_insert; [exact Hok | exact I].
Qed.

(** C10 counterexample: at model_selection the non-numeric input "reset"
    does not re-prompt: the session is deleted. *)
Lemma C10_reset_at_model_selection :
  Bot.parseInt "reset" = None /\
  Samples.store_at Bot.Step.model_selection !! "34600"
    = Some (Samples.session_at Bot.Step.model_selection) /\
  Bot.onMessage Samples.no_search Samples.calc_rejects
    (Samples.store_at Bot.Step.model_selection) "34600" "reset"
  = (delete "34600" (Samples.store_at Bot.Step.model_selection), Bot.welcome_text) /\
  fst (Bot.onMessage Samples.no_search Samples.calc_rejects
         (Samples.store_at Bot.Step.model_selection) "34600" "reset") !! "34600" = None.
Proof. repeat split; vm_compute; reflexivity. Qed.

(** C10 (amended): every transition keeps each session's [cars] within 10
    entries; a year step whose search returns two or more cars stores the
    first 10 of them in order; at model_selection an input that is not a
    reset, help or rates command is accepted exactly when [parseInt] gives
    [n] with [1 <= n <= len(cars)], the chosen car being [cars[n-1]], and is
    otherwise answered with a re-prompt, the sessions unchanged. *)
Theorem C10_cars_bounded_and_selection :
  forall search calculate (sessions : Bot.Sessions) phone text,
  SpecTerms.sessions_ok sessions ->
  SpecTerms.sessions_ok (fst (Bot.onMessage search calculate sessions phone text)) /\
  (forall s cs,
     sessions !! phone = Some s -> s.(Bot.step) = Bot.Step.year ->
     SpecTerms.is_command text = false ->
     (text = "saltar" \/ exists y, Bot.parseInt text = Some y /\ (1990 <= y <= 2026)%Z) ->
     (forall m y, search m y = Bot.json_value cs) -> (2 <= List.length cs)%nat ->
     exists s', fst (Bot.onMessage search calculate sessions phone text) !! phone = Some s'
                /\ s'.(Bot.step) = Bot.Step.model_selection
                /\ s'.(Bot.cars) = Some (firstn 10 cs)) /\
  (forall s,
     sessions !! phone = Some s -> s.(Bot.step) = Bot.Step.model_selection ->
     SpecTerms.is_command text = false ->
     let l := default [] s.(Bot.cars) in
     (forall n, Bot.parseInt text = Some n -> (1 <= n <= Z.of_nat (List.length l))%Z ->
        exists c, nth_error l (Z.to_nat (n - 1)) = Some c /\
          Bot.onMessage search calculate sessions phone text
          = (<[phone := Bot.mkSession Bot.Step.region s.(Bot.maker) s.(Bot.year) s.(Bot.cars)
                          c.(Bot.CarEntry.id) s.(Bot.region)]> sessions,
             Bot.ask_region_for c)) /\
     ((Bot.parseInt text = None \/
       exists n, Bot.parseInt text = Some n /\ (n < 1 \/ Z.of_nat (List.length l) < n)%Z) ->
      Bot.onMessage search calculate sessions phone text
      = (sessions, Bot.invalid_model (List.length l)))).
Proof.
  intros search calculate sessions phone text Hok.
  split; [now apply onMessage_sessions_ok|]. split.
  - intros s cs Hs Hstep Hc Hy Hsearch Hlen.
    rewrite (onMessage_not_command search calculate sessions phone text s Hs Hc).
    unfold Bot.dispatch. rewrite Hstep. unfold Bot.year_step.
    assert (Hacc : (negb (String.eqb text "saltar") &&
                    match (if String.eqb text "saltar" then None else Bot.parseInt text) with
                    | None => true
                    | Some y => (y <? 1990)%Z || (2026 <? y)%Z
                    end) = false).
    { destruct Hy as [-> | [y [Hp [Hlo Hhi]]]]; [reflexivity|].
      destruct (String.eqb text "saltar"); [reflexivity|]. simpl. rewrite Hp.
      apply orb_false_intro; apply Z.ltb_ge; lia. }
    rewrite Hacc, Hsearch.
    destruct cs as [|c [|c' cs']]; simpl in Hlen; [lia | lia |].
    eexists. split; [apply lookup_insert_eq|]. split; reflexivity.
  - intros s Hs Hstep Hc l. split.
    + intros n Hp Hn.
      destruct (nth_error l (Z.to_nat (n - 1))) as [c|] eqn:Hnth.
      * exists c. split; [reflexivity|].
        rewrite (onMessage_not_command search calculate sessions phone text s Hs Hc).
        unfold Bot.dispatch. rewrite Hstep. unfold Bot.model_selection_step.
        fold l. rewrite Hp.
        assert (Hb : ((n <? 1)%Z || (Z.of_nat (List.length l) <? n)%Z) = false).
        { apply orb_false_intro; apply Z.ltb_ge; lia. }
        rewrite Hb, Hnth. reflexivity.
      * exfalso. apply nth_error_None in Hnth. lia.
    + intros Hn.
      rewrite (onMessage_not_command search calculate sessions phone text s Hs Hc).
      unfold Bot.dispatch. rewrite Hstep. unfold Bot.model_selection_step. fold l.
      destruct Hn as [-> | [n [-> Hn]]]; [reflexivity|].
      assert (Hb : ((n <? 1)%Z || (Z.of_nat (List.length l) <? n)%Z) = true).
      { destruct Hn as [Hn | Hn]; apply Z.ltb_lt in Hn; rewrite Hn; [reflexivity | apply orb_true_r]. }
      now rewrite Hb.
Qed.

(** Witness of C10: the two-car selection list, answering "2". *)
Lemma C10_cars_bounded_and_selection_witness :
  Bot.onMessage Samples.no_search Samples.calc_rejects
    (Samples.store_at Bot.Step.model_selection) "34600" "2"
  = (<["34600" := Bot.mkSession Bot.Step.region (Some "toyota") (Some 2020%Z)
                   (Some [Samples.entry1; Samples.entry2]) (Some "c4") (Some "Ceuta")]>
       (Samples.store_at Bot.Step.model_selection),
     Bot.ask_region_for Samples.entry2).
Proof.
  assert (Hok : SpecTerms.sessions_ok (Samples.store_at Bot.Step.model_selection)).
  { apply sessions_ok_insert; [apply map_Forall_empty | unfold SpecTerms.cars_ok; simpl; lia]. }
  destruct (C10_cars_bounded_and_selection Samples.no_search Samples.calc_rejects
              (Samples.store_at Bot.Step.model_selection) "34600" "2" Hok)
    as [_ [_ Hsel]].
  destruct (proj1 (Hsel (Samples.session_at Bot.Step.model_selection) eq_refl eq_refl eq_refl)
              2%Z eq_refl ltac:(simpl; lia)) as [c [Hc E]].
  rewrite E. simpl in Hc. injection Hc as <-. reflexivity.
Defined.

(** * Further properties of the code *)

(** The store after a message: unchanged, the sender's session deleted,
    or the sender's session replaced. *)
Lemma onMessage_store_cases search calculate (sessions : Bot.Sessions) phone text :
  let S' := fst (Bot.onMessage search calculate sessions phone text) in
  S' = sessions \/ S' = delete phone sessions \/ exists s, S' = <[phone := s]> sessions.
Proof.
  cbv zeta. unfold Bot.onMessage.
  destruct (Bot.is_reset text); [simpl; auto|].
  destruct (Bot.is_help text); [simpl; auto|].
  destruct (Bot.is_rates text); [simpl; auto|].
  generalize (default Bot.welcome_session (sessions !! phone)). intros s.
  assert (Hcalc : forall reg res,
    let S' := fst (Bot.calculateAndReply calculate sessions phone s reg res) in
    S' = sessions \/ S' = delete phone sessions \/ exists s, S' = <[phone := s]> sessions).
  { intros reg res. unfold Bot.calculateAndReply. destruct (calculate _); simpl; auto. }
  unfold Bot.dispatch. destruct (Bot.step s); simpl; eauto.
  - unfold Bot.year_step.
    destruct (_ && _); [simpl; auto|].
    destruct (search _ _) as [| | |cs]; simpl; auto.
    destruct cs as [|c [|c' cs']]; simpl; eauto.
  - unfold Bot.model_selection_step.
    destruct (Bot.parseInt text); [|simpl; auto].
    destruct (_ || _); [simpl; auto|].
    destruct (nth_error _ _); simpl; eauto.
  - unfold Bot.region_step.
    destruct (Bot.match_region text) as [r|]; [|simpl; auto].
    destruct (Convex.is_ceuta_melilla _); simpl; eauto.
Qed.

(** X1: a message only ever touches its sender's session: the sessions of
    every other phone number are left as they were. *)
Theorem onMessage_other_sessions_untouched search calculate (sessions : Bot.Sessions)
    phone text other :
  other <> phone ->
  fst (Bot.onMessage search calculate sessions phone text) !! other = sessions !! other.
Proof.
  intros Hne.
  destruct (onMessage_store_cases search calculate sessions phone text)
    as [E|[E|[s E]]]; rewrite E.
  - reflexivity.
  - by rewrite lookup_delete_ne by congruence.
  - by rewrite lookup_insert_ne by congruence.
Qed.

Lemma onMessage_other_sessions_untouched_witness :
  "34611" <> "34600" /\
  fst (Bot.onMessage Samples.no_search Samples.calc_rejects
         (<["34611" := Samples.session_at Bot.Step.region]> (Samples.store_at Bot.Step.year))
         "34600" "reset") !! "34611" = Some (Samples.session_at Bot.Step.region).
Proof.
  split; [discriminate|].
  rewrite (onMessage_other_sessions_untouched _ _ _ "34600" "reset" "34611") by discriminate.
  apply lookup_insert_eq.
Defined.

(** X2: the help and rates commands never change any session, whatever
    step the sender is at. *)
Theorem help_and_rates_read_only search calculate (sessions : Bot.Sessions) phone text :
  Bot.is_help text || Bot.is_rates text = true ->
  fst (Bot.onMessage search calculate sessions phone text) = sessions
  /\ (Bot.onMessage search calculate sessions phone text = (sessions, Bot.help_text)
      \/ Bot.onMessage search calculate sessions phone text
         = (sessions, Bot.rates_text Bot.SPANISH_REGIONS)).
Proof.
  intros H.
  assert (Hr : Bot.is_reset text = false).
  { unfold Bot.is_help, Bot.is_rates in H.
    repeat (apply orb_true_iff in H as [H|H]); apply String.eqb_eq in H; subst; reflexivity. }
  unfold Bot.onMessage. rewrite Hr.
  destruct (Bot.is_help text) eqn:Hh; [simpl; auto|].
  simpl in H. rewrite H. simpl; auto.
Qed.

Lemma help_and_rates_read_only_witness :
  fst (Bot.onMessage Samples.no_search Samples.calc_rejects
         (Samples.store_at Bot.Step.resident_check) "34600" "tarifas")
  = Samples.store_at Bot.Step.resident_check.
Proof. exact (proj1 (help_and_rates_read_only _ _ _ _ "tarifas" eq_refl)). Defined.



(** X4: a session at the [maker] step behaves like no session at all: every
    message gets the same reply, and the two stores either become equal or
    are both left as they were. *)
Theorem maker_session_same_as_none search calculate (sessions : Bot.Sessions) phone text :
  let S1 := <[phone := Bot.mkSession Bot.Step.maker None None None None None]> sessions in
  let S2 := delete phone sessions in
  snd (Bot.onMessage search calculate S1 phone text)
    = snd (Bot.onMessage search calculate S2 phone text)
  /\ (fst (Bot.onMessage search calculate S1 phone text)
        = fst (Bot.onMessage search calculate S2 phone text)
      \/ (fst (Bot.onMessage search calculate S1 phone text) = S1
          /\ fst (Bot.onMessage search calculate S2 phone text) = S2)).
Proof.
  cbv zeta. unfold Bot.onMessage.
  rewrite lookup_insert_eq, lookup_delete_eq.
  destruct (Bot.is_reset text).
  { simpl. split; [reflexivity|]. left. by rewrite delete_insert_eq, delete_delete_eq. }
  destruct (Bot.is_help text); [simpl; auto|].
  destruct (Bot.is_rates text); [simpl; auto|].
  simpl. split; [reflexivity|]. left. by rewrite insert_insert_eq, insert_delete_eq.
Qed.

(** X5: at the year step, once the year is accepted, a failed search (the
    fetch rejects, the body is not JSON, or it is an error object) leaves
    every session as it was, and an empty result sends the sender back to
    the maker step with nothing remembered.  The search is asked for the
    stored maker and the typed year, or no year after "saltar". *)
Theorem year_step_search_failure_and_empty search calculate (sessions : Bot.Sessions)
    phone s text yparam :
  sessions !! phone = Some s -> s.(Bot.step) = Bot.Step.year ->
  SpecTerms.is_command text = false ->
  (text = "saltar" /\ yparam = None
   \/ exists y, Bot.parseInt text = Some y /\ (1990 <= y <= 2026)%Z /\ yparam = Some y) ->
  (search (default "undefined" s.(Bot.maker)) yparam = Bot.fetch_rejects
   \/ search (default "undefined" s.(Bot.maker)) yparam = Bot.json_rejects
   \/ search (default "undefined" s.(Bot.maker)) yparam = Bot.json_error_object ->
   Bot.onMessage search calculate sessions phone text = (sessions, Bot.search_error))
  /\ (search (default "undefined" s.(Bot.maker)) yparam = Bot.json_value [] ->
      Bot.onMessage search calculate sessions phone text
      = (<[phone := Bot.mkSession Bot.Step.maker None None None None None]> sessions,
         Bot.no_cars_found)).
Proof.
  intros Hs Hst Hc Hy.
  rewrite (onMessage_not_command search calculate sessions phone text s Hs Hc).
  unfold Bot.dispatch. rewrite Hst. unfold Bot.year_step.
  assert (Hacc : negb (String.eqb text "saltar")
                 && match (if String.eqb text "saltar" then None else Bot.parseInt text) with
                    | None => true
                    | Some y => (y <? 1990)%Z || (2026 <? y)%Z
                    end = false
              /\ match (if String.eqb text "saltar" then None else Bot.parseInt text) with
                 | Some y => if (y =? 0)%Z then None else Some y
                 | None => None
                 end = yparam).
  { destruct Hy as [[-> ->]|[y [Hp [Hb ->]]]]; [split; reflexivity|].
    destruct (String.eqb text "saltar") eqn:Es.
    - apply String.eqb_eq in Es. subst. discriminate Hp.
    - rewrite Hp. simpl. split.
      + apply orb_false_iff. split; apply Z.ltb_ge; lia.
      + replace (y =? 0)%Z with false by (symmetry; apply Z.eqb_neq; lia). reflexivity. }
  destruct Hacc as [Ha Hyp]. rewrite Ha, Hyp.
  split.
  - intros [E|[E|E]]; rewrite E; reflexivity.
  - intros E. rewrite E. reflexivity.
Qed.

Lemma year_step_search_failure_and_empty_witness :
  Bot.onMessage Samples.no_search Samples.calc_rejects
    (Samples.store_at Bot.Step.year) "34600" "2019"
  = (Samples.store_at Bot.Step.year, Bot.search_error).
Proof.
  apply (proj1 (year_step_search_failure_and_empty Samples.no_search Samples.calc_rejects
                  (Samples.store_at Bot.Step.year) "34600" (Samples.session_at Bot.Step.year)
                  "2019" (Some 2019%Z) eq_refl eq_refl eq_refl
                  ltac:(right; exists 2019%Z; split; [reflexivity|split; [lia|reflexivity]]))).
  left. reflexivity.
Defined.

Lemma store_shape_insert (sessions : Bot.Sessions) k s :
  Invariant.store_shape sessions -> Invariant.session_shape s ->
  Invariant.store_shape (<[k := s]> sessions).
Proof. intros H Hs. by apply map_Forall_insert_2. Qed.

Lemma store_shape_delete (sessions : Bot.Sessions) k :
  Invariant.store_shape sessions -> Invariant.store_shape (delete k sessions).
Proof. apply map_Forall_delete. Qed.

Lemma session_shape_at st mk yr cs sel reg :
  st <> Bot.Step.welcome -> st <> Bot.Step.complete -> st <> Bot.Step.resident_check ->
  Invariant.session_shape (Bot.mkSession st mk yr cs sel reg).
Proof. intros H1 H2 H3. repeat split; simpl; auto; intros E; contradiction. Qed.

Create HintDb shape.
#[local] Hint Resolve store_shape_insert store_shape_delete : shape.
#[local] Hint Extern 1 (Invariant.session_shape _) =>
  apply session_shape_at; discriminate : shape.

(** X6: no stored session is ever at [welcome] or [complete], and a
    session is only ever at [resident_check] for Ceuta or Melilla.  From an
    empty store, the [default] branch of the step switch is therefore never
    taken, and the residency answer is always about Ceuta or Melilla. *)
Theorem onMessage_keeps_store_shape search calculate (sessions : Bot.Sessions) phone text :
  Invariant.store_shape sessions ->
  Invariant.store_shape (fst (Bot.onMessage search calculate sessions phone text)).
Proof.
  intros Hok.
  destruct (onMessage_store_cases search calculate sessions phone text)
    as [E|[E|[s' E]]]; rewrite E; auto with shape.
  (* the sender's session was replaced: find by which transition *)
  unfold Bot.onMessage in E.
  destruct (Bot.is_reset text); [simpl in E|].
  { exfalso. assert (Hd := f_equal (lookup phone) E).
    rewrite lookup_delete_eq, lookup_insert_eq in Hd. discriminate. }
  assert (Hin : forall s'', <[phone := s'']> sessions = <[phone := s']> sessions ->
                            s'' = s').
  { intros s'' E'. assert (Hd := f_equal (lookup phone) E').
    rewrite !lookup_insert_eq in Hd. congruence. }
  assert (Hsame : sessions = <[phone := s']> sessions -> Invariant.session_shape s').
  { intros E'. assert (Hd := f_equal (lookup phone) E').
    rewrite lookup_insert_eq in Hd. exact (map_Forall_lookup_1 _ _ _ _ Hok Hd). }
  assert (Hdel : delete phone sessions = <[phone := s']> sessions -> False).
  { intros E'. assert (Hd := f_equal (lookup phone) E').
    rewrite lookup_delete_eq, lookup_insert_eq in Hd. discriminate. }
  apply store_shape_insert; [exact Hok|].
  destruct (Bot.is_help text); [simpl in E; auto|].
  destruct (Bot.is_rates text); [simpl in E; auto|].
  revert E. generalize (default Bot.welcome_session (sessions !! phone)). intros s E.
  unfold Bot.dispatch in E. destruct (Bot.step s) eqn:Est; simpl in E.
  - rewrite <- (Hin _ E). auto with shape.
  - rewrite <- (Hin _ E). auto with shape.
  - unfold Bot.year_step in E.
    destruct (_ && _); [simpl in E; auto|].
    destruct (search _ _) as [| | |cs]; simpl in E; auto.
    destruct cs as [|c [|c' cs']]; simpl in E; rewrite <- (Hin _ E); auto with shape.
  - unfold Bot.model_selection_step in E.
    destruct (Bot.parseInt text); [|simpl in E; auto].
    destruct (_ || _); [simpl in E; auto|].
    destruct (nth_error _ _); [|simpl in E; auto].
    rewrite <- (Hin _ E). auto with shape.
  - unfold Bot.region_step in E.
    destruct (Bot.match_region text) as [r|]; [|simpl in E; auto].
    destruct (Convex.is_ceuta_melilla (Bot.name r)) eqn:Ecm.
    + rewrite <- (Hin _ E). repeat split; simpl; try discriminate.
      intros _. unfold Convex.is_ceuta_melilla in Ecm.
      apply orb_true_iff in Ecm as [Ecm|Ecm]; apply String.eqb_eq in Ecm; rewrite Ecm; auto.
    + unfold Bot.calculateAndReply in E.
      destruct (calculate _); simpl in E; auto; exfalso; exact (Hdel E).
  - unfold Bot.calculateAndReply in E.
    destruct (calculate _); simpl in E; auto; exfalso; exact (Hdel E).
  - rewrite <- (Hin _ E). auto with shape.
Qed.

Lemma onMessage_keeps_store_shape_witness :
  Invariant.store_shape
    (fst (Bot.onMessage Samples.no_search Samples.calc_rejects ∅ "34600" "toyota")).
Proof. apply onMessage_keeps_store_shape. apply map_Forall_empty. Defined.

(** X7: a calculation that answers with a result ends the conversation:
    the sender's session is deleted and the result is shown, both after
    the residency answer and after a region other than Ceuta or Melilla. *)
Theorem calculation_success_ends_session search calculate (sessions : Bot.Sessions)
    phone s text r :
  sessions !! phone = Some s -> SpecTerms.is_command text = false ->
  (s.(Bot.step) = Bot.Step.resident_check
   \/ s.(Bot.step) = Bot.Step.region
      /\ exists e, Bot.match_region text = Some e
                   /\ Convex.is_ceuta_melilla e.(Bot.name) = false) ->
  (forall body, calculate body = Bot.json_value r) ->
  Bot.onMessage search calculate sessions phone text = (delete phone sessions, Bot.calc_result r).
Proof.
  intros Hs Hc Hst Hcalc.
  rewrite (onMessage_not_command search calculate sessions phone text s Hs Hc).
  unfold Bot.dispatch.
  destruct Hst as [E|[E [e [Hm Hcm]]]]; rewrite E.
  - unfold Bot.calculateAndReply. rewrite Hcalc. reflexivity.
  - unfold Bot.region_step. rewrite Hm, Hcm.
    unfold Bot.calculateAndReply. rewrite Hcalc. reflexivity.
Qed.

Lemma calculation_success_ends_session_witness :
  Bot.onMessage Samples.no_search
    (fun _ => Bot.json_value (Convex.mkResult Samples.corolla "Ceuta" 2 360 18000
                                (Some [Convex.Resident_discount_note])))
    (Samples.store_at Bot.Step.resident_check) "34600" "si"
  = (delete "34600" (Samples.store_at Bot.Step.resident_check),
     Bot.calc_result (Convex.mkResult Samples.corolla "Ceuta" 2 360 18000
                        (Some [Convex.Resident_discount_note]))).
Proof.
  apply (calculation_success_ends_session _ _ _ _ (Samples.session_at Bot.Step.resident_check));
    [reflexivity | reflexivity | left; reflexivity | reflexivity].
Defined.

(** X8: a text with no number that occurs inside "galicia" (the empty
    text, "a", "ga", "li", ...) selects Galicia, the first entry of the
    list, even where another region's name also contains it. *)
Theorem match_region_galicia_substring text :
  Bot.parseInt text = None -> Bot.includes "galicia" text = true ->
  Bot.match_region text = Some (Bot.mkRegion "Galicia" "3%" "⭐ ¡Más barato!").
Proof.
  intros Hp Hi. unfold Bot.match_region. rewrite Hp. unfold Bot.SPANISH_REGIONS.
  cbn [find Bot.name]. replace (Bot.toLowerCase "Galicia") with "galicia" by reflexivity.
  rewrite Hi. reflexivity.
Qed.

Lemma match_region_galicia_substring_witness :
  Bot.match_region "a" = Some (Bot.mkRegion "Galicia" "3%" "⭐ ¡Más barato!").
Proof. apply match_region_galicia_substring; reflexivity. Defined.

Lemma match_region_in text r :
  Bot.match_region text = Some r -> In r Bot.SPANISH_REGIONS.
Proof.
  unfold Bot.match_region. intros H.
  destruct (match Bot.parseInt text with
            | Some k => _ | None => None end) eqn:Eb.
  - injection H as <-. destruct (Bot.parseInt text); [|discriminate].
    destruct (_ && _); [|discriminate]. exact (nth_error_In _ _ Eb).
  - exact (proj1 (find_some _ _ H)).
Qed.

(** X9: the region the bot settles on is always an entry of its own list,
    and for every vehicle and residency answer the backend resolves it to
    a number between 0.02 and 0.08: the default rate, the prototype lookup
    and the failed insert are never reached from the dialogue. *)
Theorem match_region_rate_in_range text r :
  Bot.match_region text = Some r ->
  In r Bot.SPANISH_REGIONS
  /\ forall car isResident, exists f,
       Convex.resolved_rate r.(Bot.name) car isResident = JS.JSNumber f
       /\ PrimFloat.leb 0.02 f = true /\ PrimFloat.leb f 0.08 = true.
Proof.
  intros H. apply match_region_in in H. split; [exact H|].
  intros car res.
  unfold Convex.resolved_rate, Convex.surcharged_rate.
  unfold Bot.SPANISH_REGIONS in H. simpl in H.
  destruct (Convex.high_power _ car);
    repeat (destruct H as [<-|H];
            [destruct res as [[]|]; vm_compute;
             (eexists; split; [reflexivity|split; reflexivity])|]);
    destruct H.
Qed.

Lemma match_region_rate_in_range_witness :
  exists f, Convex.resolved_rate "Ceuta" Samples.corolla (Some true) = JS.JSNumber f
            /\ PrimFloat.leb 0.02 f = true /\ PrimFloat.leb f 0.08 = true.
Proof.
  exact (proj2 (match_region_rate_in_range "ceuta" (Bot.mkRegion "Ceuta" "4%" "(2% residentes)")
                  eq_refl) Samples.corolla (Some true)).
Defined.

(** X10: outside the high-power regions the rate does not depend on the
    vehicle at all: e.g. the 8% above 2000cc that the bot announces for the
    Comunidad Valenciana is never applied. *)
Theorem rate_ignores_vehicle_outside_high_power region car car' isResident :
  JS.includes Convex.HIGH_POWER_REGIONS region = false ->
  Convex.resolved_rate region car isResident = Convex.resolved_rate region car' isResident
  /\ Convex.build_notes region car isResident = Convex.build_notes region car' isResident.
Proof.
  intros H. unfold Convex.resolved_rate, Convex.surcharged_rate, Convex.build_notes,
    Convex.high_power.
  rewrite H. simpl. split; reflexivity.
Qed.

Lemma rate_ignores_vehicle_outside_high_power_witness :
  Convex.resolved_rate "Comunidad Valenciana" Samples.corolla None
  = Convex.resolved_rate "Comunidad Valenciana"
      (Convex.mkCar "toyota" "Land Cruiser" 2020 20 55000 Convex.diesel) None.
Proof. exact (proj1 (rate_ignores_vehicle_outside_high_power "Comunidad Valenciana" _ _ _ eq_refl)). Defined.

(** X11: the mutation never touches the [cars] table, and the [transfers]
    log only grows by the one record of a successful call, which carries
    the returned region and tax, the rate the result displays, and the
    call time.  A failed call leaves the log as it was. *)
Theorem mutation_appends_one_transfer (db : Convex.Db) now args :
  let '(db', out) := Convex.calculateTransferTax db now args in
  db'.(Convex.cars) = db.(Convex.cars)
  /\ match out with
     | inl _ => db'.(Convex.transfers) = db.(Convex.transfers)
     | inr r => exists rate,
         db'.(Convex.transfers)
           = (db.(Convex.transfers)
              ++ [Convex.mkTransfer args.(Convex.arg_carId) r.(Convex.r_region)
                    r.(Convex.r_calculatedTax) rate now])%list
         /\ r.(Convex.r_taxRate_pct) = PrimFloat.mul rate 100
     end.
Proof.
  unfold Convex.calculateTransferTax.
  destruct (Convex.cars db !! Convex.arg_carId args) as [car|]; [|split; reflexivity].
  destruct (Convex.resolved_rate _ car _) as [rate| | |]; try (split; reflexivity).
  split; [reflexivity|]. exists rate. split; reflexivity.
Qed.









(** X15: a search with a year returns exactly the maker's cars of that
    year, in the same order as the search without a year. *)
Theorem search_year_refines_maker table maker (y : Z) :
  y <> 0%Z ->
  Search.searchCars table maker (Some (Some y))
  = filter (fun d => ((snd d).(Convex.year) =? y)%Z) (Search.searchCars table maker None).
Proof.
  intros Hy. unfold Search.searchCars, Search.year_truthy.
  replace (y =? 0)%Z with false by (symmetry; apply Z.eqb_neq; exact Hy).
  rewrite list_filter_filter. apply list_filter_iff. intros d.
  destruct (String.eqb _ _), (_ =? y)%Z; simpl; tauto.
Qed.

Lemma search_year_refines_maker_witness :
  Search.searchCars (fst (Search.seedMockData (fun _ => "id") [])) "toyota" (Some (Some 2020%Z))
  = filter (fun d => ((snd d).(Convex.year) =? 2020)%Z)
      (Search.searchCars (fst (Search.seedMockData (fun _ => "id") [])) "toyota" None).
Proof. apply search_year_refines_maker. discriminate. Defined.














Lemma In_existsb_string (n : string) l : In n l <-> existsb (String.eqb n) l = true.
Proof.
  rewrite existsb_exists. split.
  - intros H. exists n. split; [exact H|apply String.eqb_refl].
  - intros [x [Hx E]]. apply String.eqb_eq in E. subst. exact Hx.
Qed.

(** X18: the bot's region list and the backend's [getTaxRatesByRegion]
    name the same 19 regions with the same displayed rate (["4%"] against
    ["4.0%"], ["5.5%"] against ["5.5%"], ...), the bot's high-power note is
    on exactly the backend's high-power regions, and its resident note on
    exactly Ceuta and Melilla. *)
Theorem region_tables_agree :
  (forall n, In n (map Bot.name Bot.SPANISH_REGIONS)
             <-> In n (map Rates.row_region Rates.getTaxRatesByRegion))
  /\ (forall e row, In e Bot.SPANISH_REGIONS -> In row Rates.getTaxRatesByRegion ->
        row.(Rates.row_region) = e.(Bot.name) ->
        exists s, row.(Rates.row_rate) = Some s /\ Rates.percent_eq e.(Bot.rate) s = true)
  /\ (forall e, In e Bot.SPANISH_REGIONS ->
        (e.(Bot.note) = "(8% si >15 CV)" <-> In e.(Bot.name) Convex.HIGH_POWER_REGIONS)
        /\ (e.(Bot.note) = "(2% residentes)" <-> Convex.is_ceuta_melilla e.(Bot.name) = true)).
Proof.
  split; [|split].
  - assert (H1 : forallb (fun n => existsb (String.eqb n)
                                     (map Rates.row_region Rates.getTaxRatesByRegion))
                   (map Bot.name Bot.SPANISH_REGIONS) = true) by (vm_compute; reflexivity).
    assert (H2 : forallb (fun n => existsb (String.eqb n) (map Bot.name Bot.SPANISH_REGIONS))
                   (map Rates.row_region Rates.getTaxRatesByRegion) = true)
      by (vm_compute; reflexivity).
    rewrite forallb_forall in H1, H2.
    intros n. rewrite !In_existsb_string. split; intros H.
    + apply H1. apply In_existsb_string. exact H.
    + apply H2. apply In_existsb_string. exact H.
  - assert (H : forallb (fun e => forallb (fun row =>
                   negb (String.eqb row.(Rates.row_region) e.(Bot.name))
                   || match row.(Rates.row_rate) with
                      | Some s => Rates.percent_eq e.(Bot.rate) s
                      | None => false
                      end) Rates.getTaxRatesByRegion) Bot.SPANISH_REGIONS = true)
      by (vm_compute; reflexivity).
    intros e row He Hrow Heq.
    rewrite forallb_forall in H. specialize (H e He).
    rewrite forallb_forall in H. specialize (H row Hrow).
    rewrite Heq, String.eqb_refl in H. simpl in H.
    destruct (Rates.row_rate row) as [s|]; [|discriminate].
    exists s. split; [reflexivity|exact H].
  - assert (H : forallb (fun e =>
                   Bool.eqb (String.eqb e.(Bot.note) "(8% si >15 CV)")
                            (JS.includes Convex.HIGH_POWER_REGIONS e.(Bot.name))
                   && Bool.eqb (String.eqb e.(Bot.note) "(2% residentes)")
                               (Convex.is_ceuta_melilla e.(Bot.name)))
                  Bot.SPANISH_REGIONS = true) by (vm_compute; reflexivity).
    intros e He. rewrite forallb_forall in H. specialize (H e He).
    apply andb_true_iff in H as [H1 H2].
    apply Bool.eqb_prop in H1, H2.
    unfold JS.includes in H1. rewrite In_existsb_string, <- H1, <- H2, !String.eqb_eq.
    split; reflexivity.
Qed.

Lemma search_route_no_ids table maker year cs :
  Backend.search_route table maker year = Bot.json_value cs ->
  Forall (fun c => c.(Bot.CarEntry.id) = None) cs.
Proof.
  unfold Backend.search_route.
  destruct (Search.http_searchCars _ _ _) as [docs|]; [|discriminate].
  intros E. injection E as <-. apply List.Forall_forall.
  intros c Hc. apply in_map_iff in Hc as [d [<- _]]. reflexivity.
Qed.

(** The calculation route refuses a body without [carId]. *)
Lemma calculate_route_no_id db now region isResident :
  Backend.calculate_route db now (Convex.mkBody None region isResident) = Bot.json_error_object.
Proof. reflexivity. Qed.

Lemma no_car_ids_insert (sessions : Bot.Sessions) k s :
  Backend.no_car_ids sessions -> s.(Bot.selectedCarId) = None ->
  Forall (fun c => c.(Bot.CarEntry.id) = None) (default [] s.(Bot.cars)) ->
  Backend.no_car_ids (<[k := s]> sessions).
Proof. intros H H1 H2. by apply map_Forall_insert_2. Qed.

(** X19: wired to this repository's own routes, the bot never shows a tax
    result.  The search route returns Convex documents, whose id is the
    [_id] property, while the bot keeps [car.id]; so no session ever holds
    a car id, the calculation body has no [carId], and the route answers
    400, which the bot reports as an error. *)
Theorem own_routes_never_compute table db now (sessions : Bot.Sessions) phone text :
  Backend.no_car_ids sessions ->
  Backend.no_car_ids
    (fst (Bot.onMessage (Backend.search_route table) (Backend.calculate_route db now)
            sessions phone text))
  /\ forall r, snd (Bot.onMessage (Backend.search_route table) (Backend.calculate_route db now)
                      sessions phone text) <> Bot.calc_result r.
Proof.
  intros Hok.
  assert (Hs : let s := default Bot.welcome_session (sessions !! phone) in
               s.(Bot.selectedCarId) = None
               /\ Forall (fun c => c.(Bot.CarEntry.id) = None) (default [] s.(Bot.cars))).
  { destruct (sessions !! phone) as [s|] eqn:E; simpl; [|split; [reflexivity|constructor]].
    exact (map_Forall_lookup_1 _ _ _ _ Hok E). }
  unfold Bot.onMessage.
  destruct (Bot.is_reset text).
  { split; [apply map_Forall_delete; exact Hok|intros r; discriminate]. }
  destruct (Bot.is_help text); [split; [exact Hok|intros r; discriminate]|].
  destruct (Bot.is_rates text); [split; [exact Hok|intros r; discriminate]|].
  revert Hs. generalize (default Bot.welcome_session (sessions !! phone)).
  intros s [Hsel Hcs].
  assert (Hcalc : forall reg res,
    Backend.no_car_ids (fst (Bot.calculateAndReply (Backend.calculate_route db now)
                               sessions phone s reg res))
    /\ forall r, snd (Bot.calculateAndReply (Backend.calculate_route db now)
                        sessions phone s reg res) <> Bot.calc_result r).
  { intros reg res. unfold Bot.calculateAndReply. rewrite Hsel, calculate_route_no_id.
    split; [apply map_Forall_delete; exact Hok|intros r; discriminate]. }
  unfold Bot.dispatch. destruct (Bot.step s).
  - split; [apply no_car_ids_insert; auto|intros r; discriminate].
  - split; [apply no_car_ids_insert; auto|intros r; discriminate].
  - unfold Bot.year_step.
    destruct (_ && _); [split; [exact Hok|intros r; discriminate]|].
    destruct (Backend.search_route table _ _) as [| | |cs] eqn:Es;
      try (split; [exact Hok|intros r; discriminate]).
    apply search_route_no_ids in Es.
    destruct cs as [|c [|c' cs']].
    + split; [apply no_car_ids_insert; auto|intros r; discriminate].
    + split; [|intros r; discriminate].
      apply no_car_ids_insert; auto. simpl. inversion Es. assumption.
    + split; [|intros r; discriminate].
      apply no_car_ids_insert; auto. cbn [Bot.cars default from_option id].
      apply Forall_take. exact Es.
  - unfold Bot.model_selection_step.
    destruct (Bot.parseInt text); [|split; [exact Hok|intros r; discriminate]].
    destruct (_ || _); [split; [exact Hok|intros r; discriminate]|].
    destruct (nth_error _ _) as [c|] eqn:En; [|split; [exact Hok|intros r; discriminate]].
    split; [|intros r; discriminate].
    apply no_car_ids_insert; auto. simpl.
    exact (proj1 (List.Forall_forall _ _) Hcs c (nth_error_In _ _ En)).
  - unfold Bot.region_step.
    destruct (Bot.match_region text) as [e|]; [|split; [exact Hok|intros r; discriminate]].
    destruct (Convex.is_ceuta_melilla _); [|apply Hcalc].
    split; [apply no_car_ids_insert; auto|intros r; discriminate].
  - apply Hcalc.
  - split; [apply no_car_ids_insert; auto|intros r; discriminate].
Qed.

Lemma own_routes_never_compute_witness :
  Backend.no_car_ids (∅ : Bot.Sessions)
  /\ Backend.no_car_ids
       (fst (Bot.onMessage (Backend.search_route (fst (Search.seedMockData (fun _ => "id") [])))
               (Backend.calculate_route Samples.db 0) ∅ "34600" "toyota")).
Proof.
  split; [apply map_Forall_empty|].
  exact (proj1 (own_routes_never_compute _ Samples.db 0 ∅ "34600" "toyota"
                  (map_Forall_empty _))).
Defined.

(** X20: wired to this repository's calculation route, the answer to the
    residency question makes no difference: "si" and "no" give the same
    reply and the same sessions. *)
Theorem resident_answer_ignored search db now (sessions : Bot.Sessions) phone s :
  sessions !! phone = Some s -> s.(Bot.step) = Bot.Step.resident_check ->
  Bot.onMessage search (Backend.calculate_route db now) sessions phone "si"
  = Bot.onMessage search (Backend.calculate_route db now) sessions phone "no".
Proof.
  intros Hs Hst.
  rewrite (onMessage_not_command _ _ _ _ "si" s Hs eq_refl),
          (onMessage_not_command _ _ _ _ "no" s Hs eq_refl).
  unfold Bot.dispatch. rewrite Hst. reflexivity.
Qed.

Lemma resident_answer_ignored_witness :
  Bot.onMessage Samples.no_search (Backend.calculate_route Samples.db 0)
    (Samples.store_at Bot.Step.resident_check) "34600" "si"
  = Bot.onMessage Samples.no_search (Backend.calculate_route Samples.db 0)
      (Samples.store_at Bot.Step.resident_check) "34600" "no".
Proof.
  exact (resident_answer_ignored Samples.no_search Samples.db 0
           (Samples.store_at Bot.Step.resident_check) "34600"
           (Samples.session_at Bot.Step.resident_check) eq_refl eq_refl).
Defined.
